(** * harbor-scanner-trivy: the Trivy wrapper (pkg/trivy/wrapper.go)

    A shallow embedding of [Run] and [parseScanReports].  Go values are
    modelled as they are in the source: slices keep the difference between
    [nil] and an empty slice, the [error] interface is an optional error
    value, and a function with results [(report, err)] returns the pair.
    Calls that leave the process (looking up the executable, the temporary
    file, the subprocess, the JSON decoder, removing the file, the logger)
    go through a small monad that threads the outside world and records
    what was called. *)

From Stdlib Require Import String Ascii List Bool Arith Lia ZArith.
Import ListNotations.
Open Scope string_scope.
Open Scope list_scope.

(** ** Go slices *)

Module GoSlice.

(** A slice is [nil] or points at a backing array; the two are different
    values even when both have length 0. *)
Inductive slice (A : Type) : Type :=
| nil_slice
| mk_slice (elems : list A).
Arguments nil_slice {A}.
Arguments mk_slice {A} elems.

Definition elements {A} (s : slice A) : list A :=
  match s with
  | nil_slice => []
  | mk_slice l => l
  end.

Definition len {A} (s : slice A) : nat := length (elements s).

Definition is_nil {A} (s : slice A) : bool :=
  match s with
  | nil_slice => true
  | mk_slice _ => false
  end.

(** [append(s, t...)]: with nothing to add the first operand is returned
    as it is (so a nil slice stays nil and an empty one stays empty). *)
Definition append {A} (s t : slice A) : slice A :=
  match elements t with
  | [] => s
  | x :: l => mk_slice (elements s ++ x :: l)
  end.

End GoSlice.
Import GoSlice.

(** ** Errors and formatting *)

(** Error values the wrapper meets: those made by other packages (os/exec,
    io/ioutil, encoding/json), of which only the message is known, and the
    two constructors of golang.org/x/xerrors it calls.  An [Errorf] value
    keeps its format and operands. *)
#[local] Set Warnings "-register-all".
Inductive error_value : Type :=
| Foreign (msg : string)
| xerrors_New (text : string)
| xerrors_Errorf (format : string) (a : list (string + error_value)).

(** The Go interface type [error]: [None] is [nil]. *)
Definition error : Type := option error_value.

(** [fmt.Sprintf] for the verbs the wrapper uses (%s, %v, %w and the
    literal %%), over operands already rendered as text.  A verb without an
    operand prints Go's MISSING marker; other characters are copied. *)
Fixpoint Sprintf (format : string) (a : list string) : string :=
  match format with
  | EmptyString => EmptyString
  | String "%" (String c rest) =>
      if Ascii.eqb c "%" then String "%" (Sprintf rest a)
      else if Ascii.eqb c "s" || Ascii.eqb c "v" || Ascii.eqb c "w" then
        match a with
        | x :: a' => x ++ Sprintf rest a'
        | [] => "%!" ++ String c "(MISSING)" ++ Sprintf rest []
        end
      else String "%" (String c (Sprintf rest a))
  | String c rest => String c (Sprintf rest a)
  end.

(** The [Error()] method, for the formats whose verbs are %s and %v: an
    error operand is printed through its own [Error()].  How an [Errorf]
    value with the verb %w prints, and whether it unwraps to its operand,
    changes from one release of xerrors to another; no statement below reads
    the text of such a value. *)
Fixpoint Error (e : error_value) : string :=
  match e with
  | Foreign msg => msg
  | xerrors_New text => text
  | xerrors_Errorf format a =>
      Sprintf format
        (map (fun o => match o with
                       | inl s => s
                       | inr e' => Error e'
                       end) a)
  end.

(** [strings.Contains s substr]. *)
Fixpoint Contains (s substr : string) : bool :=
  String.prefix substr s ||
  match s with
  | EmptyString => false
  | String _ s' => Contains s' substr
  end.

(** ** Data of the package *)

(** RegistryAuth wraps registry credentials. *)
Record RegistryAuth : Type := {
  Username : string;
  Password : string
}.

(** Modelled from the spec: the configuration struct [etc.Trivy] is declared
    in the package etc, which is not among the sources; these are the fields
    that the wrapper reads (reports directory, cache directory, severity and
    vulnerability-type filters, ignore-unfixed and debug-mode flags). *)
Record Trivy : Type := {
  ReportsDir : string;
  CacheDir : string;
  Severity : string;
  VulnType : string;
  IgnoreUnfixed : bool;
  DebugMode : bool
}.

(** [*exec.Cmd] as far as the wrapper sets it: [exec.Command name arg...]
    stores the name in front of the arguments. *)
Record Cmd : Type := {
  Path : string;
  Args : list string;
  Env : list string
}.

Definition exec_Command (name : string) (arg : list string) : Cmd :=
  {| Path := name; Args := name :: arg; Env := [] |}.

Definition set_Env (cmd : Cmd) (env : list string) : Cmd :=
  {| Path := Path cmd; Args := Args cmd; Env := env |}.

(** What running a command to completion leaves behind: the bytes of
    standard output, the content of the standard error buffer, the exit
    code of [ProcessState] and the error of [cmd.Output]. *)
Record ProcessResult : Type := {
  stdout : string;
  stderr : string;
  exit_code : Z;
  run_err : error
}.

(** logrus levels the wrapper logs at, and the values it attaches. *)
Inductive Level : Type := TraceLevel | DebugLevel | WarnLevel | ErrorLevel.

Inductive field_value : Type :=
| FString (s : string)
| FStrings (l : list string)
| FInt (z : Z)
| FError (e : error_value).

(** Calls that reach outside the process, in the order they are made. *)
Inductive Event : Type :=
| EvLog (level : Level) (fields : list (string * field_value)) (msg : string)
| EvLookPath (file : string)
| EvTempFile (dir pattern : string)
| EvOutput (cmd : Cmd)
| EvDecode
| EvRemove (name : string).

(** ** The monad of effects *)

Section Effects.

Variable World : Type.

(** A Go call returns or panics. *)
Inductive outcome (A : Type) : Type :=
| Ret (a : A)
| Panic (v : string).

(** A computation takes the world and gives its outcome, the world after
    it and the calls it made. *)
Definition M (A : Type) : Type := World -> outcome A * World * list Event.

Definition ret {A} (a : A) : M A := fun s => (Ret A a, s, []).

Definition panic {A} (v : string) : M A := fun s => (Panic A v, s, []).

Definition bind {A B} (m : M A) (k : A -> M B) : M B :=
  fun s =>
    let '(o, s1, t1) := m s in
    match o with
    | Ret _ a => let '(o2, s2, t2) := k a s1 in (o2, s2, t1 ++ t2)
    | Panic _ v => (Panic B v, s1, t1)
    end.

Definition emit (e : Event) : M unit := fun s => (Ret unit tt, s, [e]).

(** [defer]: the deferred function runs when the body returns and when it
    panics; it sees the named results and gives them back (a deferred
    closure may assign them).  [entry] holds the named results as they
    are declared, for a body that panics. *)
Definition defer {R} (deferred : R -> M R) (entry : R) (body : M R) : M R :=
  fun s =>
    let '(o, s1, t1) := body s in
    match o with
    | Ret _ r => let '(o2, s2, t2) := deferred r s1 in (o2, s2, t1 ++ t2)
    | Panic _ v =>
        let '(o2, s2, t2) := deferred entry s1 in
        (match o2 with
         | Ret _ _ => Panic R v
         | Panic _ v2 => Panic R v2
         end, s2, t1 ++ t2)
    end.

(** [for _, x := range l { ... }] over the state the body updates. *)
Fixpoint for_range {A S} (l : list A) (body : S -> A -> M S) (st : S) : M S :=
  match l with
  | [] => ret st
  | x :: l' => bind (body st x) (for_range l' body)
  end.

(** [s[i]]: an index out of range panics. *)
Definition index {A} (s : slice A) (i : nat) : M A :=
  match nth_error (elements s) i with
  | Some x => ret x
  | None => panic "runtime error: index out of range"
  end.

(** What the caller receives, and the calls made. *)
Definition result {A} (r : outcome A * World * list Event) : outcome A :=
  fst (fst r).

Definition trace {A} (r : outcome A * World * list Event) : list Event :=
  snd r.

End Effects.

Arguments Ret {A} a.
Arguments Panic {A} v.
Arguments ret {World A} a.
Arguments panic {World A} v.
Arguments bind {World A B} m k.
Arguments emit {World} e.
Arguments defer {World R} deferred entry body.
Arguments for_range {World A S} l body st.
Arguments index {World A} s i.
Arguments result {World A} r.
Arguments trace {World A} r.

Declare Scope go_scope.
Delimit Scope go_scope with go.
Notation "x <- c ;; k" := (bind c (fun x => k))
  (at level 61, c at next level, right associativity) : go_scope.
Notation "c ;; k" := (bind c (fun _ => k))
  (at level 61, right associativity) : go_scope.
Open Scope go_scope.

(** ** The wrapper *)

Section Wrapper.

(** A vulnerability record is passed through and never inspected; the
    reader behind a report file and the outside world stay abstract. *)
Variable Vulnerability : Type.
Variable Reader : Type.
Variable World : Type.

(** Modelled from the spec: the struct ScanReport is declared in the
    package's model file, which is not among the sources; it holds a target
    identifier and an ordered sequence of vulnerability records. *)
Record ScanReport : Type := {
  Target : string;
  Vulnerabilities : slice Vulnerability
}.

(** The zero value of a named result [report ScanReport]. *)
Definition zero_ScanReport : ScanReport :=
  {| Target := ""; Vulnerabilities := nil_slice |}.

Definition set_Target (r : ScanReport) (t : string) : ScanReport :=
  {| Target := t; Vulnerabilities := Vulnerabilities r |}.

Definition set_Vulnerabilities (r : ScanReport) (v : slice Vulnerability)
  : ScanReport :=
  {| Target := Target r; Vulnerabilities := v |}.

(** [*os.File]: its name, and the file as an [io.Reader]. *)
Record File : Type := {
  Name : string;
  reader : Reader
}.

(** The calls into other packages.  Each takes the world and gives the
    world back; a call that can fail gives a value or an error. *)
Record OS : Type := {
  exec_LookPath : string -> World -> (string + error_value) * World;
  ioutil_TempFile : string -> string -> World -> (File + error_value) * World;
  os_Environ : World -> list string;
  cmd_Output : Cmd -> World -> ProcessResult * World;
  json_Decode : Reader -> World -> (slice ScanReport + error_value) * World;
  os_Remove : string -> World -> error * World
}.

(** The same calls, with another [os.Remove]. *)
Definition with_Remove (os : OS) (rm : string -> World -> error * World) : OS :=
  {| exec_LookPath := exec_LookPath os;
     ioutil_TempFile := ioutil_TempFile os;
     os_Environ := os_Environ os;
     cmd_Output := cmd_Output os;
     json_Decode := json_Decode os;
     os_Remove := rm |}.

Record wrapper : Type := {
  config : Trivy
}.

Definition NewWrapper (config : Trivy) : wrapper := {| config := config |}.

Section Calls.

Variable os : OS.

Definition log (level : Level) (fields : list (string * field_value))
           (msg : string) : M World unit :=
  emit (EvLog level fields msg).

Definition LookPath (file : string) : M World (string + error_value) :=
  fun s => let '(r, s') := exec_LookPath os file s in
           (Ret r, s', [EvLookPath file]).

Definition TempFile (dir pattern : string) : M World (File + error_value) :=
  fun s => let '(r, s') := ioutil_TempFile os dir pattern s in
           (Ret r, s', [EvTempFile dir pattern]).

Definition Environ : M World (list string) :=
  fun s => (Ret (os_Environ os s), s, []).

Definition Output (cmd : Cmd) : M World ProcessResult :=
  fun s => let '(r, s') := cmd_Output os cmd s in
           (Ret r, s', [EvOutput cmd]).

Definition Decode (r : Reader) : M World (slice ScanReport + error_value) :=
  fun s => let '(v, s') := json_Decode os r s in
           (Ret v, s', [EvDecode]).

Definition Remove (name : string) : M World error :=
  fun s => let '(e, s') := os_Remove os name s in
           (Ret e, s', [EvRemove name]).

Definition parseScanReports (w : wrapper) (reportFile : Reader)
  : M World (ScanReport * error) :=
  let report := zero_ScanReport in
  r <- Decode reportFile ;;
  match r with
  | inr err =>
      ret (report,
           Some (xerrors_Errorf "decoding scan report from file %w" [inr err]))
  | inl scanReports =>
      if (len scanReports =? 0)%nat then
        ret (report, Some (xerrors_New "expected at least one report"))
      else
        first <- index scanReports 0 ;;
        let report := set_Target report (Target first) in
        let report := set_Vulnerabilities report (mk_slice []) in
        report <- for_range (elements scanReports)
                    (fun report scanReport =>
                       log TraceLevel [("target", FString (Target scanReport))]
                           "Parsing vulnerabilities" ;;
                       ret (set_Vulnerabilities report
                              (append (Vulnerabilities report)
                                      (Vulnerabilities scanReport))))
                    report ;;
        ret (report, None)
  end.

Definition Run (w : wrapper) (imageRef : string) (auth : RegistryAuth)
           (insecureRegistry : bool) : M World (ScanReport * error) :=
  let report := zero_ScanReport in
  log DebugLevel [("image_ref", FString imageRef)] "Started scanning" ;;
  r <- LookPath "trivy" ;;
  match r with
  | inr err => ret (report, Some err)
  | inl executable =>
      r <- TempFile (ReportsDir (config w)) "scan_report_*.json" ;;
      match r with
      | inr err => ret (report, Some err)
      | inl reportFile =>
          log DebugLevel [("path", FString (Name reportFile))]
              "Saving scan report to tmp file" ;;
          defer
            (fun results =>
               log DebugLevel [("path", FString (Name reportFile))]
                   "Removing scan report tmp file" ;;
               err <- Remove (Name reportFile) ;;
               match err with
               | Some e =>
                   log WarnLevel [("error", FError e)]
                       "Error while removing scan report file"
               | None => ret tt
               end ;;
               ret results)
            (report, None)
            (let args :=
               [ "--no-progress";
                 "--cache-dir"; CacheDir (config w);
                 "--severity"; Severity (config w);
                 "--vuln-type"; VulnType (config w);
                 "--format"; "json";
                 "--output"; Name reportFile;
                 imageRef ] in
             let args :=
               if IgnoreUnfixed (config w)
               then ["--ignore-unfixed"] ++ args else args in
             let args :=
               if DebugMode (config w)
               then ["--debug"] ++ args else args in
             log TraceLevel [("cmd", FString executable);
                             ("args", FStrings args)]
                 "Exec command with args" ;;
             let cmd := exec_Command executable args in
             env <- Environ ;;
             let cmd := set_Env cmd env in
             let cmd :=
               if negb (Username auth =? "")%string && negb (Password auth =? "")%string
               then set_Env cmd
                      (Env cmd ++
                       [ Sprintf "TRIVY_USERNAME=%s" [Username auth];
                         Sprintf "TRIVY_PASSWORD=%s" [Password auth] ])
               else cmd in
             let cmd :=
               if insecureRegistry
               then set_Env cmd (Env cmd ++ [Sprintf "TRIVY_NON_SSL=true" []])
               else cmd in
             p <- Output cmd ;;
             match run_err p with
             | Some err =>
                 log ErrorLevel [("image_ref", FString imageRef);
                                 ("exit_code", FInt (exit_code p));
                                 ("std_err", FString (stderr p));
                                 ("std_out", FString (stdout p))]
                     "Running trivy failed" ;;
                 ret (report,
                      Some (xerrors_Errorf "running trivy: %v: %v"
                              [inr err; inl (stderr p)]))
             | None =>
                 log DebugLevel [("image_ref", FString imageRef);
                                 ("exit_code", FInt (exit_code p));
                                 ("std_err", FString (stderr p));
                                 ("std_out", FString (stdout p))]
                     "Running trivy finished" ;;
                 parseScanReports w (reader reportFile)
             end)
      end
  end.

End Calls.

End Wrapper.

Arguments ScanReport Vulnerability : clear implicits.
Arguments Target {Vulnerability} s.
Arguments Vulnerabilities {Vulnerability} s.
Arguments zero_ScanReport {Vulnerability}.
Arguments File Reader : clear implicits.
Arguments Name {Reader} f.
Arguments reader {Reader} f.
Arguments OS Vulnerability Reader World : clear implicits.
Arguments exec_LookPath {Vulnerability Reader World} o file s.
Arguments ioutil_TempFile {Vulnerability Reader World} o dir pattern s.
Arguments os_Environ {Vulnerability Reader World} o s.
Arguments cmd_Output {Vulnerability Reader World} o cmd s.
Arguments json_Decode {Vulnerability Reader World} o r s.
Arguments os_Remove {Vulnerability Reader World} o name s.
Arguments with_Remove {Vulnerability Reader World} os rm.
Arguments parseScanReports {Vulnerability Reader World} os w reportFile.
Arguments Run {Vulnerability Reader World} os w imageRef auth insecureRegistry.

(** ** Reading a trace *)

(** The commands run, and the files whose removal was asked for. *)
Definition commands (t : list Event) : list Cmd :=
  flat_map (fun e => match e with EvOutput c => [c] | _ => [] end) t.

Definition removed (t : list Event) : list string :=
  flat_map (fun e => match e with EvRemove n => [n] | _ => [] end) t.

(** The entries handed to the logger, and the other calls. *)
Definition is_log (e : Event) : bool :=
  match e with
  | EvLog _ _ _ => true
  | _ => false
  end.

Definition logs (t : list Event) : list Event := filter is_log t.

Definition calls (t : list Event) : list Event :=
  filter (fun e => negb (is_log e)) t.

(** ** Words for the statements *)

(** The vulnerability lists of the sub-reports, one after the other. *)
Definition flattened {Vulnerability : Type}
           (l : list (ScanReport Vulnerability)) : list Vulnerability :=
  concat (map (fun r => elements (Vulnerabilities r)) l).

(** The body of the loop of [parseScanReports]. *)
Definition collect {Vulnerability World : Type}
           (report scanReport : ScanReport Vulnerability)
  : M World (ScanReport Vulnerability) :=
  log World TraceLevel [("target", FString (Target scanReport))]
      "Parsing vulnerabilities" ;;
  ret (set_Vulnerabilities Vulnerability report
         (append (Vulnerabilities report) (Vulnerabilities scanReport))).

(** The command line and the environment overlay in the words of the
    design: the base flags in their order, with the two optional flags in
    front, and the variables added to the ambient environment. *)
Definition flags (w : wrapper) (output imageRef : string) : list string :=
  (if DebugMode (config w) then ["--debug"] else []) ++
  (if IgnoreUnfixed (config w) then ["--ignore-unfixed"] else []) ++
  [ "--no-progress";
    "--cache-dir"; CacheDir (config w);
    "--severity"; Severity (config w);
    "--vuln-type"; VulnType (config w);
    "--format"; "json";
    "--output"; output;
    imageRef ].

Definition overlay (auth : RegistryAuth) (insecureRegistry : bool) : list string :=
  (if negb (Username auth =? "")%string && negb (Password auth =? "")%string
   then [ ("TRIVY_USERNAME=" ++ Username auth)%string;
          ("TRIVY_PASSWORD=" ++ Password auth)%string ]
   else []) ++
  (if insecureRegistry then ["TRIVY_NON_SSL=true"] else []).

Definition scanner_cmd (w : wrapper) (executable output imageRef : string)
           (auth : RegistryAuth) (insecureRegistry : bool)
           (ambient : list string) : Cmd :=
  {| Path := executable;
     Args := executable :: flags w output imageRef;
     Env := ambient ++ overlay auth insecureRegistry |}.

(** What follows the subprocess: the error of a failed scan, or the
    normalizer on the report file. *)
Definition after_scan {Vulnerability Reader World : Type}
           (os : OS Vulnerability Reader World) (w : wrapper)
           (imageRef : string) (reportFile : File Reader)
           (p : ProcessResult) (s : World)
  : outcome (ScanReport Vulnerability * error) * World * list Event :=
  let fields := [("image_ref", FString imageRef);
                 ("exit_code", FInt (exit_code p));
                 ("std_err", FString (stderr p));
                 ("std_out", FString (stdout p))] in
  match run_err p with
  | Some err =>
      (Ret (zero_ScanReport,
            Some (xerrors_Errorf "running trivy: %v: %v"
                    [inr err; inl (stderr p)])),
       s, [EvLog ErrorLevel fields "Running trivy failed"])
  | None =>
      let r := parseScanReports os w (reader reportFile) s in
      (result r, snd (fst r),
       EvLog DebugLevel fields "Running trivy finished" :: trace r)
  end.

(** The calls of the deferred function. *)
Definition cleanup (name : string) (e : error) : list Event :=
  [ EvLog DebugLevel [("path", FString name)] "Removing scan report tmp file";
    EvRemove name ] ++
  match e with
  | Some e => [EvLog WarnLevel [("error", FError e)]
                     "Error while removing scan report file"]
  | None => []
  end.

(** ** A small world to run the wrapper in *)

Module Demo.

Record Vuln : Type := { VulnerabilityID : string }.

(** A file holds what the decoder makes of its bytes. *)
Definition content : Type := slice (ScanReport Vuln) + error_value.

Record world : Type := {
  files : list (string * content);
  environ : list string
}.

(** A scanner: how the process ends and what it writes to its output. *)
Record scanner : Type := {
  ends : ProcessResult;
  writes : content
}.

Fixpoint output_path (args : list string) : string :=
  match args with
  | flag :: rest =>
      if (flag =? "--output")%string then hd "" rest else output_path rest
  | [] => ""
  end.

Fixpoint read (name : string) (fs : list (string * content)) : content :=
  match fs with
  | (n, c) :: fs' => if (n =? name)%string then c else read name fs'
  | [] => inr (Foreign "EOF")
  end.

Definition write (name : string) (c : content) (s : world) : world :=
  {| files := (name, c) :: files s; environ := environ s |}.

Definition unlink (name : string) (s : world) : world :=
  {| files := filter (fun f => negb (fst f =? name)%string) (files s);
     environ := environ s |}.

(** The reader of a file is its name; removing fails with [rm] when that
    is an error and unlinks the file otherwise. *)
Definition demo_os (trivy : scanner) (rm : error) : OS Vuln string world :=
  {| exec_LookPath := fun file s => (inl ("/usr/local/bin/" ++ file)%string, s);
     ioutil_TempFile := fun dir pattern s =>
       let name := (dir ++ "/scan_report_271828.json")%string in
       (inl {| Name := name; reader := name |},
        write name (inr (Foreign "EOF")) s);
     os_Environ := environ;
     cmd_Output := fun cmd s =>
       (ends trivy, write (output_path (Args cmd)) (writes trivy) s);
     json_Decode := fun r s => (read r (files s), s);
     os_Remove := fun name s =>
       match rm with
       | Some e => (Some e, s)
       | None => (None, unlink name s)
       end |}.

Definition start : world :=
  {| files := []; environ := ["PATH=/usr/local/bin"] |}.

Definition cfg : wrapper :=
  NewWrapper {| ReportsDir := "/data/reports"; CacheDir := "/data/cache";
                Severity := "HIGH,CRITICAL"; VulnType := "os";
                IgnoreUnfixed := true; DebugMode := false |}.

Definition exit0 : ProcessResult :=
  {| stdout := ""; stderr := ""; exit_code := 0%Z; run_err := None |}.

Definition exit1 : ProcessResult :=
  {| stdout := ""; stderr := "unable to pull image"; exit_code := 1%Z;
     run_err := Some (Foreign "exit status 1") |}.

Definition cve (id : string) : Vuln := {| VulnerabilityID := id |}.

Definition alpine : ScanReport Vuln :=
  {| Target := "alpine:3.10 (alpine 3.10.2)";
     Vulnerabilities := mk_slice [cve "CVE-2019-0001"] |}.

Definition gomod : ScanReport Vuln :=
  {| Target := "go.sum";
     Vulnerabilities := mk_slice [cve "CVE-2020-0002"; cve "CVE-2020-0003"] |}.

Definition clean : ScanReport Vuln :=
  {| Target := "scratch"; Vulnerabilities := nil_slice |}.

Definition good : scanner :=
  {| ends := exit0; writes := inl (mk_slice [alpine; gomod]) |}.

Definition spotless : scanner :=
  {| ends := exit0; writes := inl (mk_slice [clean; clean]) |}.

Definition silent : scanner :=
  {| ends := exit0; writes := inl (mk_slice []) |}.

Definition garbled : scanner :=
  {| ends := exit0;
     writes := inr (Foreign "json: cannot unmarshal object into Go value of type []trivy.ScanReport") |}.

Definition failing : scanner :=
  {| ends := exit1; writes := inr (Foreign "EOF") |}.

Definition bob : RegistryAuth := {| Username := "bob"; Password := "s3cret" |}.

Definition anonymous : RegistryAuth := {| Username := ""; Password := "" |}.

(** The world in which a scanner has written its report to [name]. *)
Definition written (name : string) (trivy : scanner) : world :=
  write name (writes trivy) start.

(** The temporary report file of a run under [cfg], and the world once
    it is created. *)
Definition report_file : File string :=
  {| Name := "/data/reports/scan_report_271828.json";
     reader := "/data/reports/scan_report_271828.json" |}.

Definition created_world : world :=
  write (Name report_file) (inr (Foreign "EOF")) start.

(** An [os.Remove] that always fails. *)
Definition denied (name : string) (s : world) : error * world :=
  (Some (Foreign "permission denied"), s).

(** The small world without the executable on the search path, and with a
    reports directory in which no file can be created. *)
Definition no_trivy (trivy : scanner) : OS Vuln string world :=
  {| exec_LookPath := fun file s =>
       (inr (Foreign "exec: trivy: executable file not found in $PATH"), s);
     ioutil_TempFile := ioutil_TempFile (demo_os trivy None);
     os_Environ := environ;
     cmd_Output := cmd_Output (demo_os trivy None);
     json_Decode := json_Decode (demo_os trivy None);
     os_Remove := os_Remove (demo_os trivy None) |}.

Definition full_disk (trivy : scanner) : OS Vuln string world :=
  {| exec_LookPath := exec_LookPath (demo_os trivy None);
     ioutil_TempFile := fun dir pattern s =>
       (inr (Foreign "no space left on device"), s);
     os_Environ := environ;
     cmd_Output := cmd_Output (demo_os trivy None);
     json_Decode := json_Decode (demo_os trivy None);
     os_Remove := os_Remove (demo_os trivy None) |}.

(** A world whose ambient environment already holds the variables of the
    scanner, and credentials without a password. *)
Definition exported : world :=
  {| files := [];
     environ := [ "PATH=/usr/local/bin"; "TRIVY_USERNAME=alice";
                  "TRIVY_PASSWORD="; "TRIVY_NON_SSL=true" ] |}.

Definition alice_no_password : RegistryAuth :=
  {| Username := "alice"; Password := "" |}.

(** The command of a run under [cfg] in the small world, and the world
    once a scanner has run it. *)
Definition demo_cmd (auth : RegistryAuth) (insecureRegistry : bool) : Cmd :=
  scanner_cmd cfg "/usr/local/bin/trivy" (Name report_file) "alpine:3.10"
    auth insecureRegistry ["PATH=/usr/local/bin"].

Definition scanned_world (trivy : scanner) : world :=
  write (Name report_file) (writes trivy) created_world.

End Demo.

(** ** What the decoder reads *)

Module Stream.

(** The first JSON value of a stream, by kind; for an array, what the
    decoder makes of each element (that depends on the declarations of
    ScanReport and Vulnerability). *)
Inductive kind (V : Type) : Type :=
| KNull
| KBool
| KNumber
| KString
| KObject
| KArray (elements : list (ScanReport V + error_value)).
Arguments KNull {V}.
Arguments KBool {V}.
Arguments KNumber {V}.
Arguments KString {V}.
Arguments KObject {V}.
Arguments KArray {V} elements.

(** A stream starts with a complete JSON value, followed by whatever bytes
    remain, or it is malformed (a syntax error, or it ends too early). *)
Inductive document (V : Type) : Type :=
| Malformed (err : error_value)
| First (v : kind V) (rest : string).
Arguments Malformed {V} err.
Arguments First {V} v rest.

Definition is_array {V} (d : document V) : bool :=
  match d with
  | First (KArray _) _ => true
  | _ => false
  end.

Definition kind_name {V} (v : kind V) : string :=
  match v with
  | KNull => "null"
  | KBool => "bool"
  | KNumber => "number"
  | KString => "string"
  | KObject => "object"
  | KArray _ => "array"
  end.

(** The elements of an array: the first error met is the error of the
    whole, and without one the elements are the slice. *)
Fixpoint collect_elements {V} (l : list (ScanReport V + error_value))
  : list (ScanReport V) + error_value :=
  match l with
  | [] => inl []
  | inr e :: _ => inr e
  | inl r :: l' =>
      match collect_elements l' with
      | inl rs => inl (r :: rs)
      | inr e =>  inr e
      end
  end.

(** [json.NewDecoder(r).Decode(&scanReports)] for [scanReports] of type
    []ScanReport: the decoder takes the first value of the stream and leaves
    the rest unread; the value null sets the slice to nil without error, an
    array gives a slice that is not nil, any other value is a type error. *)
Definition Decode_slice {V} (d : document V) : slice (ScanReport V) + error_value :=
  match d with
  | Malformed err => inr err
  | First KNull _ => inl nil_slice
  | First (KArray l) _ =>
      match collect_elements l with
      | inl rs => inl (mk_slice rs)
      | inr e => inr e
      end
  | First v _ =>
      inr (Foreign ("json: cannot unmarshal " ++ kind_name v ++
                    " into Go value of type []trivy.ScanReport")%string)
  end.

(** The small world, reading streams. *)
Definition stream_os : OS Demo.Vuln (document Demo.Vuln) Demo.world :=
  {| exec_LookPath := exec_LookPath (Demo.demo_os Demo.good None);
     ioutil_TempFile := fun dir pattern s =>
       (inr (Foreign "no space left on device"), s);
     os_Environ := Demo.environ;
     cmd_Output := cmd_Output (Demo.demo_os Demo.good None);
     json_Decode := fun r s => (Decode_slice r, s);
     os_Remove := os_Remove (Demo.demo_os Demo.good None) |}.

End Stream.

Import Demo.

(** * Properties *)

(** ** Slices *)

Lemma elements_append {A} (s t : slice A) :
  elements (append s t) = elements s ++ elements t.
Proof.
  unfold append. destruct (elements t) as [|x l] eqn:Et.
  - now rewrite app_nil_r.
  - reflexivity.
Qed.

Lemma is_nil_append {A} (s t : slice A) :
  is_nil s = false -> is_nil (append s t) = false.
Proof.
  unfold append. intros Hs. now destruct (elements t).
Qed.

Lemma len_append {A} (s t : slice A) : len (append s t) = len s + len t.
Proof. unfold len. now rewrite elements_append, length_app. Qed.

(** ** Strings and traces *)

Lemma string_app_nil_r (s : string) : (s ++ "")%string = s.
Proof. induction s as [|c s IH]; simpl; [reflexivity | now rewrite IH]. Qed.

Lemma prefix_app (p s : string) : String.prefix p (p ++ s) = true.
Proof.
  induction p as [|c p IH]; simpl.
  - now destruct s.
  - destruct (Ascii.ascii_dec c c) as [_|N]; [exact IH | now elim N].
Qed.

Lemma Contains_app (pre sub post : string) :
  Contains (pre ++ sub ++ post) sub = true.
Proof.
  induction pre as [|c pre IH].
  - change ("" ++ sub ++ post)%string with (sub ++ post)%string.
    assert (U : forall s, Contains s sub = true \/ String.prefix sub s = false).
    { intros s. destruct (String.prefix sub s) eqn:P; [left | now right].
      destruct s; cbn [Contains]; now rewrite P. }
    destruct (U (sub ++ post)%string) as [H | H]; [exact H |].
    now rewrite prefix_app in H.
  - simpl. rewrite IH. apply orb_true_r.
Qed.

Lemma commands_app (t u : list Event) : commands (t ++ u) = commands t ++ commands u.
Proof. apply flat_map_app. Qed.

Lemma removed_app (t u : list Event) : removed (t ++ u) = removed t ++ removed u.
Proof. apply flat_map_app. Qed.

Lemma in_commands (c : Cmd) (t : list Event) :
  In (EvOutput c) t <-> In c (commands t).
Proof.
  unfold commands. rewrite in_flat_map. split.
  - intros H. exists (EvOutput c). split; [exact H | now left].
  - intros [e [He Hc]]. destruct e; simpl in Hc; try contradiction.
    destruct Hc as [-> | []]. exact He.
Qed.

(** ** The report normalizer *)

Section ParseProperties.

Context {Vulnerability Reader World : Type}.
Variable os : OS Vulnerability Reader World.
Variable w : wrapper.

#[local] Abbreviation Report := (ScanReport Vulnerability).

Lemma append_mk_slice (l0 : list Vulnerability) (t : slice Vulnerability) :
  append (mk_slice l0) t = mk_slice (l0 ++ elements t).
Proof.
  unfold append. simpl. destruct (elements t); [now rewrite app_nil_r | reflexivity].
Qed.

Lemma collect_loop (l : list Report) (target : string)
      (l0 : list Vulnerability) (s : World) :
  for_range l collect {| Target := target; Vulnerabilities := mk_slice l0 |} s =
  (Ret {| Target := target; Vulnerabilities := mk_slice (l0 ++ flattened l) |},
   s,
   map (fun r => EvLog TraceLevel [("target", FString (Target r))]
                       "Parsing vulnerabilities") l).
Proof.
  revert l0. induction l as [|r l IH]; intros l0.
  - unfold flattened. simpl. unfold ret. now rewrite app_nil_r.
  - simpl. unfold bind at 1. unfold collect at 1. unfold bind, log, emit, ret.
    simpl. unfold set_Vulnerabilities. simpl. rewrite append_mk_slice.
    rewrite IH. unfold flattened. simpl. now rewrite app_assoc.
Qed.

(** What [parseScanReports] does in each of its three cases. *)
Lemma parse_decode_error (reportFile : Reader) (s s' : World) (err : error_value) :
  json_Decode os reportFile s = (inr err, s') ->
  parseScanReports os w reportFile s =
  (Ret (zero_ScanReport,
        Some (xerrors_Errorf "decoding scan report from file %w" [inr err])),
   s', [EvDecode]).
Proof.
  intros H. unfold parseScanReports, bind, Decode. rewrite H. reflexivity.
Qed.

Lemma parse_empty (reportFile : Reader) (s s' : World) (scanReports : slice Report) :
  json_Decode os reportFile s = (inl scanReports, s') ->
  len scanReports = 0 ->
  parseScanReports os w reportFile s =
  (Ret (zero_ScanReport, Some (xerrors_New "expected at least one report")),
   s', [EvDecode]).
Proof.
  intros H L. unfold parseScanReports, bind, Decode. rewrite H, L. reflexivity.
Qed.

Lemma parse_merge (reportFile : Reader) (s s' : World) (scanReports : slice Report)
      (first : Report) (rest : list Report) :
  json_Decode os reportFile s = (inl scanReports, s') ->
  elements scanReports = first :: rest ->
  parseScanReports os w reportFile s =
  (Ret ({| Target := Target first;
           Vulnerabilities := mk_slice (flattened (first :: rest)) |}, None),
   s',
   EvDecode ::
   map (fun r => EvLog TraceLevel [("target", FString (Target r))]
                       "Parsing vulnerabilities") (first :: rest)).
Proof.
  intros H E. unfold parseScanReports, bind, Decode. rewrite H.
  unfold len, index. rewrite E. cbn [length Nat.eqb nth_error].
  unfold ret at 1. cbn iota beta.
  unfold set_Vulnerabilities, set_Target. cbn [Target Vulnerabilities zero_ScanReport].
  fold (@collect Vulnerability World). rewrite collect_loop. unfold ret. cbn iota beta.
  now rewrite app_nil_r.
Qed.

Lemma nonempty_elements (scanReports : slice Report) :
  len scanReports <> 0 ->
  exists first rest, elements scanReports = first :: rest.
Proof.
  unfold len. destruct (elements scanReports) as [|first rest].
  - intros H. now elim H.
  - intros _. now exists first, rest.
Qed.

Lemma flattened_nil (l : list Report) :
  (forall r, In r l -> is_nil (Vulnerabilities r) = true) -> flattened l = [].
Proof.
  unfold flattened. induction l as [|r l IH]; intros H; simpl.
  - reflexivity.
  - rewrite IH by (intros r' Hr'; apply H; now right).
    specialize (H r (or_introl eq_refl)).
    destruct (Vulnerabilities r); [reflexivity | discriminate].
Qed.

(** C1. When the decoder yields a non-empty sequence of sub-reports,
    [parseScanReports] succeeds with an aggregate whose vulnerabilities are
    the sub-reports' vulnerability lists concatenated in sub-report order;
    their number is the sum of the sub-reports' counts. *)
Theorem parseScanReports_concatenates
        (reportFile : Reader) (s s' : World) (scanReports : slice Report) :
  json_Decode os reportFile s = (inl scanReports, s') ->
  len scanReports <> 0 ->
  exists report,
    result (parseScanReports os w reportFile s) = Ret (report, None) /\
    elements (Vulnerabilities report) =
      concat (map (fun r => elements (Vulnerabilities r)) (elements scanReports)) /\
    len (Vulnerabilities report) =
      list_sum (map (fun r => len (Vulnerabilities r)) (elements scanReports)).
Proof.
  intros H L. destruct (nonempty_elements scanReports L) as [first [rest E]].
  rewrite (parse_merge reportFile s s' scanReports first rest H E).
  eexists. split; [reflexivity |]. rewrite E. split; [reflexivity |].
  unfold len. cbn [Vulnerabilities elements]. unfold flattened.
  now rewrite length_concat, map_map.
Qed.

(** C2. When the decoder yields a non-empty sequence of sub-reports, the
    aggregate carries the target of the first one, whatever the number and
    the targets of those that follow. *)
Theorem parseScanReports_first_target
        (reportFile : Reader) (s s' : World) (scanReports : slice Report)
        (first : Report) (rest : list Report) :
  json_Decode os reportFile s = (inl scanReports, s') ->
  elements scanReports = first :: rest ->
  exists report,
    result (parseScanReports os w reportFile s) = Ret (report, None) /\
    Target report = Target first.
Proof.
  intros H E. rewrite (parse_merge reportFile s s' scanReports first rest H E).
  eexists. split; reflexivity.
Qed.

(** C3. When the decoder yields zero sub-reports, [parseScanReports]
    returns the error "expected at least one report" with the zero report:
    the error is not nil and no aggregate is built. *)
Theorem parseScanReports_empty_fails
        (reportFile : Reader) (s s' : World) (scanReports : slice Report) :
  json_Decode os reportFile s = (inl scanReports, s') ->
  len scanReports = 0 ->
  result (parseScanReports os w reportFile s) =
    Ret (zero_ScanReport, Some (xerrors_New "expected at least one report")) /\
  forall report, result (parseScanReports os w reportFile s) <> Ret (report, None).
Proof.
  intros H L. rewrite (parse_empty reportFile s s' scanReports H L).
  split; [reflexivity | intros report; discriminate].
Qed.

(** C4. When the decoder reports an error, [parseScanReports] returns the
    zero report and the error made by [xerrors.Errorf] from the format
    "decoding scan report from file %w" with the decoder's error as its
    operand; it never returns a nil error then.  (An input that the decoder
    accepts is not a decode error, array or not.) *)
Theorem parseScanReports_decode_error
        (reportFile : Reader) (s s' : World) (err : error_value) :
  json_Decode os reportFile s = (inr err, s') ->
  exists e,
    result (parseScanReports os w reportFile s) = Ret (zero_ScanReport, Some e) /\
    e = xerrors_Errorf "decoding scan report from file %w" [inr err] /\
    forall report, result (parseScanReports os w reportFile s) <> Ret (report, None).
Proof.
  intros H. rewrite (parse_decode_error reportFile s s' err H).
  eexists. split; [reflexivity |].
  split; [reflexivity | intros report; discriminate].
Qed.

(** C10. When [parseScanReports] succeeds, the vulnerabilities of the
    aggregate are a slice that is not nil; when every sub-report has a nil
    vulnerability slice it is the empty slice. *)
Theorem parseScanReports_vulnerabilities_not_nil
        (reportFile : Reader) (s s' : World) (scanReports : slice Report) :
  json_Decode os reportFile s = (inl scanReports, s') ->
  len scanReports <> 0 ->
  exists report,
    result (parseScanReports os w reportFile s) = Ret (report, None) /\
    is_nil (Vulnerabilities report) = false /\
    ((forall r, In r (elements scanReports) ->
                is_nil (Vulnerabilities r) = true) ->
     Vulnerabilities report = mk_slice []).
Proof.
  intros H L. destruct (nonempty_elements scanReports L) as [first [rest E]].
  rewrite (parse_merge reportFile s s' scanReports first rest H E).
  eexists. split; [reflexivity |]. split; [reflexivity |].
  intros N. rewrite E in N. cbn [Vulnerabilities]. now rewrite flattened_nil.
Qed.

End ParseProperties.

(** The normalizer in the small world. *)

Example parse_good :
  result (parseScanReports (demo_os good None) cfg "r.json" (written "r.json" good)) =
  Ret ({| Target := "alpine:3.10 (alpine 3.10.2)";
          Vulnerabilities :=
            mk_slice [cve "CVE-2019-0001"; cve "CVE-2020-0002"; cve "CVE-2020-0003"] |},
       None).
Proof. reflexivity. Qed.

Lemma parseScanReports_concatenates_witness :
  exists report,
    result (parseScanReports (demo_os good None) cfg "r.json" (written "r.json" good)) =
      Ret (report, None) /\
    elements (Vulnerabilities report) =
      concat (map (fun r => elements (Vulnerabilities r)) [alpine; gomod]) /\
    len (Vulnerabilities report) =
      list_sum (map (fun r => len (Vulnerabilities r)) [alpine; gomod]).
Proof.
  apply (parseScanReports_concatenates (demo_os good None) cfg "r.json"
           (written "r.json" good) (written "r.json" good) (mk_slice [alpine; gomod])).
  - reflexivity.
  - unfold len. simpl. lia.
Defined.

Lemma parseScanReports_first_target_witness :
  exists report,
    result (parseScanReports (demo_os good None) cfg "r.json" (written "r.json" good)) =
      Ret (report, None) /\
    Target report = "alpine:3.10 (alpine 3.10.2)".
Proof.
  apply (parseScanReports_first_target (demo_os good None) cfg "r.json"
           (written "r.json" good) (written "r.json" good)
           (mk_slice [alpine; gomod]) alpine [gomod]).
  - reflexivity.
  - reflexivity.
Defined.

Lemma parseScanReports_empty_fails_witness :
  result (parseScanReports (demo_os silent None) cfg "r.json" (written "r.json" silent)) =
    Ret (zero_ScanReport, Some (xerrors_New "expected at least one report")) /\
  forall report,
    result (parseScanReports (demo_os silent None) cfg "r.json" (written "r.json" silent))
    <> Ret (report, None).
Proof.
  apply (parseScanReports_empty_fails (demo_os silent None) cfg "r.json"
           (written "r.json" silent) (written "r.json" silent) (mk_slice [])).
  - reflexivity.
  - reflexivity.
Defined.

Lemma parseScanReports_decode_error_witness :
  exists e,
    result (parseScanReports (demo_os garbled None) cfg "r.json" (written "r.json" garbled)) =
      Ret (zero_ScanReport, Some e) /\
    e = xerrors_Errorf "decoding scan report from file %w"
          [inr (Foreign "json: cannot unmarshal object into Go value of type []trivy.ScanReport")] /\
    forall report,
      result (parseScanReports (demo_os garbled None) cfg "r.json" (written "r.json" garbled))
      <> Ret (report, None).
Proof.
  apply (parseScanReports_decode_error (demo_os garbled None) cfg "r.json"
           (written "r.json" garbled) (written "r.json" garbled)).
  reflexivity.
Defined.

Lemma parseScanReports_vulnerabilities_not_nil_witness :
  exists report,
    result (parseScanReports (demo_os spotless None) cfg "r.json"
              (written "r.json" spotless)) = Ret (report, None) /\
    is_nil (Vulnerabilities report) = false /\
    ((forall r, In r [clean; clean] -> is_nil (Vulnerabilities r) = true) ->
     Vulnerabilities report = mk_slice []).
Proof.
  apply (parseScanReports_vulnerabilities_not_nil (demo_os spotless None) cfg "r.json"
           (written "r.json" spotless) (written "r.json" spotless)
           (mk_slice [clean; clean])).
  - reflexivity.
  - unfold len. simpl. lia.
Defined.

(** ** The invoker *)

Section RunSteps.

Context {Vulnerability Reader World : Type}.

Lemma Run_steps (os : OS Vulnerability Reader World) (w : wrapper)
      (imageRef : string) (auth : RegistryAuth) (insecureRegistry : bool)
      (s s1 s2 : World) (executable : string) (reportFile : File Reader) :
  exec_LookPath os "trivy" s = (inl executable, s1) ->
  ioutil_TempFile os (ReportsDir (config w)) "scan_report_*.json" s1 =
    (inl reportFile, s2) ->
  let cmd := scanner_cmd w executable (Name reportFile) imageRef auth
               insecureRegistry (os_Environ os s2) in
  let ran := cmd_Output os cmd s2 in
  let scanned := after_scan os w imageRef reportFile (fst ran) (snd ran) in
  let gone := os_Remove os (Name reportFile) (snd (fst scanned)) in
  Run os w imageRef auth insecureRegistry s =
  (result scanned, snd gone,
   [ EvLog DebugLevel [("image_ref", FString imageRef)] "Started scanning";
     EvLookPath "trivy";
     EvTempFile (ReportsDir (config w)) "scan_report_*.json";
     EvLog DebugLevel [("path", FString (Name reportFile))]
           "Saving scan report to tmp file";
     EvLog TraceLevel [("cmd", FString executable);
                       ("args", FStrings (flags w (Name reportFile) imageRef))]
           "Exec command with args";
     EvOutput cmd ] ++
   trace scanned ++ cleanup (Name reportFile) (fst gone)).
Proof.
  intros found created cmd ran scanned gone.
  assert (built :
    (let args := [ "--no-progress"; "--cache-dir"; CacheDir (config w);
                   "--severity"; Severity (config w);
                   "--vuln-type"; VulnType (config w);
                   "--format"; "json"; "--output"; Name reportFile; imageRef ] in
     let args := if IgnoreUnfixed (config w)
                 then ["--ignore-unfixed"] ++ args else args in
     let args := if DebugMode (config w) then ["--debug"] ++ args else args in
     let c := set_Env (exec_Command executable args) (os_Environ os s2) in
     let c := if negb (Username auth =? "")%string && negb (Password auth =? "")%string
              then set_Env c (Env c ++
                              [ Sprintf "TRIVY_USERNAME=%s" [Username auth];
                                Sprintf "TRIVY_PASSWORD=%s" [Password auth] ])
              else c in
     if insecureRegistry
     then set_Env c (Env c ++ [Sprintf "TRIVY_NON_SSL=true" []])
     else c) = cmd).
  { subst cmd. unfold scanner_cmd, flags, overlay.
    destruct (DebugMode (config w)), (IgnoreUnfixed (config w)),
      (negb (Username auth =? "")%string && negb (Password auth =? "")%string),
      insecureRegistry;
      cbn [app set_Env exec_Command Env Args Path Sprintf Ascii.eqb
           Bool.eqb orb String.append];
      rewrite ?string_app_nil_r, <- ?app_assoc, ?app_nil_r; reflexivity. }
  cbv zeta in built.
  unfold Run, bind, defer, log, emit, LookPath, TempFile, Environ, Output,
    Remove, ret.
  rewrite found. cbn iota beta. rewrite created. cbv zeta. cbn iota beta.
  rewrite built. fold ran. clearbody cmd.
  subst gone scanned. unfold after_scan, result, trace, cleanup, flags.
  clearbody ran. destruct ran as [p s3]. cbn [fst snd].
  destruct (run_err p) as [err|].
  - cbn [fst snd].
    destruct (os_Remove os (Name reportFile) s3) as [[e|] s5];
      destruct (DebugMode (config w)), (IgnoreUnfixed (config w));
      reflexivity.
  - cbn [fst snd].
    destruct (parseScanReports os w (reader reportFile) s3) as [[[r|v] s4] t];
      cbn [fst snd];
      destruct (os_Remove os (Name reportFile) s4) as [[e|] s5];
      destruct (DebugMode (config w)), (IgnoreUnfixed (config w));
      cbn [fst snd app]; rewrite <- ?app_assoc; reflexivity.
Qed.


(** The calls after the subprocess neither start a command nor remove a
    file, and do not depend on how [os.Remove] behaves. *)
Lemma logs_quiet (l : list (ScanReport Vulnerability)) :
  let t := map (fun r => EvLog TraceLevel [("target", FString (Target r))]
                               "Parsing vulnerabilities") l in
  commands t = [] /\ removed t = [].
Proof. induction l as [|r l [IHc IHr]]; split; simpl; auto. Qed.

Lemma parse_quiet (os : OS Vulnerability Reader World) (w : wrapper)
      (reportFile : Reader) (s : World) :
  commands (trace (parseScanReports os w reportFile s)) = [] /\
  removed (trace (parseScanReports os w reportFile s)) = [].
Proof.
  destruct (json_Decode os reportFile s) as [[scanReports|err] s'] eqn:D.
  - destruct (elements scanReports) as [|first rest] eqn:E.
    + rewrite (parse_empty os w reportFile s s' scanReports D);
        [now split | unfold len; now rewrite E].
    + rewrite (parse_merge os w reportFile s s' scanReports first rest D E).
      unfold trace. cbn [snd]. destruct (logs_quiet (first :: rest)) as [C R].
      split; [exact C | exact R].
  - rewrite (parse_decode_error os w reportFile s s' err D). now split.
Qed.

Lemma after_scan_quiet (os : OS Vulnerability Reader World) (w : wrapper)
      (imageRef : string) (reportFile : File Reader)
      (p : ProcessResult) (s : World) :
  commands (trace (after_scan os w imageRef reportFile p s)) = [] /\
  removed (trace (after_scan os w imageRef reportFile p s)) = [].
Proof.
  unfold after_scan. destruct (run_err p) as [err|].
  - now split.
  - destruct (parse_quiet os w (reader reportFile) s) as [C R].
    unfold trace in *. cbn [snd]. split; [exact C | exact R].
Qed.

Lemma after_scan_with_Remove (os : OS Vulnerability Reader World)
      (rm : string -> World -> error * World) (w : wrapper)
      (imageRef : string) (reportFile : File Reader)
      (p : ProcessResult) (s : World) :
  after_scan (with_Remove os rm) w imageRef reportFile p s =
  after_scan os w imageRef reportFile p s.
Proof. reflexivity. Qed.

(** The command of a run that reached the subprocess. *)
Lemma Run_commands (os : OS Vulnerability Reader World) (w : wrapper)
      (imageRef : string) (auth : RegistryAuth) (insecureRegistry : bool)
      (s s1 s2 : World) (executable : string) (reportFile : File Reader) :
  exec_LookPath os "trivy" s = (inl executable, s1) ->
  ioutil_TempFile os (ReportsDir (config w)) "scan_report_*.json" s1 =
    (inl reportFile, s2) ->
  commands (trace (Run os w imageRef auth insecureRegistry s)) =
  [scanner_cmd w executable (Name reportFile) imageRef auth insecureRegistry
     (os_Environ os s2)].
Proof.
  intros found created.
  rewrite (Run_steps os w imageRef auth insecureRegistry s s1 s2 executable
             reportFile found created).
  unfold trace at 1. cbn [snd]. rewrite !commands_app.
  rewrite (proj1 (after_scan_quiet _ _ _ _ _ _)).
  unfold cleanup. now destruct (fst (os_Remove _ _ _)).
Qed.

(** Without the executable or without the temporary file nothing is run. *)
Lemma Run_not_found (os : OS Vulnerability Reader World) (w : wrapper)
      (imageRef : string) (auth : RegistryAuth) (insecureRegistry : bool)
      (s s1 : World) (err : error_value) :
  exec_LookPath os "trivy" s = (inr err, s1) ->
  Run os w imageRef auth insecureRegistry s =
  (Ret (zero_ScanReport, Some err), s1,
   [ EvLog DebugLevel [("image_ref", FString imageRef)] "Started scanning";
     EvLookPath "trivy" ]).
Proof.
  intros H. unfold Run, bind, log, emit, LookPath, ret. rewrite H. reflexivity.
Qed.

Lemma Run_no_tempfile (os : OS Vulnerability Reader World) (w : wrapper)
      (imageRef : string) (auth : RegistryAuth) (insecureRegistry : bool)
      (s s1 s2 : World) (executable : string) (err : error_value) :
  exec_LookPath os "trivy" s = (inl executable, s1) ->
  ioutil_TempFile os (ReportsDir (config w)) "scan_report_*.json" s1 =
    (inr err, s2) ->
  Run os w imageRef auth insecureRegistry s =
  (Ret (zero_ScanReport, Some err), s2,
   [ EvLog DebugLevel [("image_ref", FString imageRef)] "Started scanning";
     EvLookPath "trivy";
     EvTempFile (ReportsDir (config w)) "scan_report_*.json" ]).
Proof.
  intros H T. unfold Run, bind, log, emit, LookPath, TempFile, ret.
  rewrite H. cbn iota beta. rewrite T. reflexivity.
Qed.

End RunSteps.

Lemma string_app_assoc (a b c : string) :
  ((a ++ b) ++ c)%string = (a ++ b ++ c)%string.
Proof. induction a as [|x a IH]; simpl; [reflexivity | now rewrite IH]. Qed.

(** What the overlay holds. *)
Lemma overlay_credentials (auth : RegistryAuth) (insecureRegistry : bool) :
  ((Username auth <> "" /\ Password auth <> "") <->
   (In ("TRIVY_USERNAME=" ++ Username auth)%string (overlay auth insecureRegistry) /\
    In ("TRIVY_PASSWORD=" ++ Password auth)%string (overlay auth insecureRegistry))) /\
  ((Username auth = "" \/ Password auth = "") ->
   forall entry, In entry (overlay auth insecureRegistry) ->
     String.prefix "TRIVY_USERNAME=" entry = false /\
     String.prefix "TRIVY_PASSWORD=" entry = false).
Proof.
  unfold overlay.
  destruct (String.eqb_spec (Username auth) "") as [U | U];
    destruct (String.eqb_spec (Password auth) "") as [P | P];
    cbn [negb andb app].
  1-3: split;
    [ split;
      [ intros [HU HP]; congruence
      | intros [HU HP]; destruct insecureRegistry; simpl in HU;
        [destruct HU as [HU | []]; discriminate HU | contradiction] ]
    | intros _ entry He; destruct insecureRegistry; simpl in He;
      [destruct He as [<- | []]; now split | contradiction] ].
  split.
  - split; [intros _ | intros _; now split].
    split; [now left | right; now left].
  - intros [E | E]; congruence.
Qed.

Lemma overlay_non_ssl (auth : RegistryAuth) (insecureRegistry : bool) :
  (In "TRIVY_NON_SSL=true" (overlay auth insecureRegistry) <->
   insecureRegistry = true) /\
  (insecureRegistry = false ->
   forall entry, In entry (overlay auth insecureRegistry) ->
     String.prefix "TRIVY_NON_SSL=" entry = false).
Proof.
  unfold overlay.
  destruct (negb (Username auth =? "")%string && negb (Password auth =? "")%string);
    destruct insecureRegistry; cbn [app]; split.
  - split; [reflexivity | intros _; right; right; now left].
  - discriminate.
  - split; [| discriminate].
    intros [H | [H | []]]; discriminate H.
  - intros _ entry [<- | [<- | []]]; reflexivity.
  - split; [reflexivity | intros _; now left].
  - discriminate.
  - split; [intros [] | discriminate].
  - intros _ entry [].
Qed.

Section RunProperties.

Context {Vulnerability Reader World : Type}.
Variable os : OS Vulnerability Reader World.
Variable w : wrapper.
Variables (imageRef : string) (auth : RegistryAuth) (insecureRegistry : bool).
Variables (s s1 s2 : World) (executable : string) (reportFile : File Reader).

(** The run reaches the subprocess: the executable is found and the
    temporary report file is created. *)
Hypothesis found : exec_LookPath os "trivy" s = (inl executable, s1).
Hypothesis created :
  ioutil_TempFile os (ReportsDir (config w)) "scan_report_*.json" s1 =
    (inl reportFile, s2).

(** C5. The environment of the subprocess is the ambient environment
    followed by an overlay; the overlay holds TRIVY_USERNAME and
    TRIVY_PASSWORD, set to the given username and password, exactly when
    both are non-empty, and holds neither variable when one is empty.  When
    the ambient environment has no such variable of its own, the same holds
    of the whole environment. *)
Theorem Run_credentials_env :
  exists cmd added,
    commands (trace (Run os w imageRef auth insecureRegistry s)) = [cmd] /\
    Env cmd = os_Environ os s2 ++ added /\
    ((Username auth <> "" /\ Password auth <> "") <->
     (In ("TRIVY_USERNAME=" ++ Username auth)%string added /\
      In ("TRIVY_PASSWORD=" ++ Password auth)%string added)) /\
    ((Username auth = "" \/ Password auth = "") ->
     forall entry, In entry added ->
       String.prefix "TRIVY_USERNAME=" entry = false /\
       String.prefix "TRIVY_PASSWORD=" entry = false) /\
    ((forall entry, In entry (os_Environ os s2) ->
        String.prefix "TRIVY_USERNAME=" entry = false /\
        String.prefix "TRIVY_PASSWORD=" entry = false) ->
     ((Username auth <> "" /\ Password auth <> "") <->
      (In ("TRIVY_USERNAME=" ++ Username auth)%string (Env cmd) /\
       In ("TRIVY_PASSWORD=" ++ Password auth)%string (Env cmd)))).
Proof.
  exists (scanner_cmd w executable (Name reportFile) imageRef auth
            insecureRegistry (os_Environ os s2)),
         (overlay auth insecureRegistry).
  split; [exact (Run_commands os w imageRef auth insecureRegistry s s1 s2
                   executable reportFile found created) |].
  split; [reflexivity |].
  destruct (overlay_credentials auth insecureRegistry) as [both neither].
  split; [exact both |]. split; [exact neither |].
  intros clean. cbn [Env scanner_cmd]. rewrite both. split.
  - intros [HU HP]. split; apply in_or_app; now right.
  - intros [HU HP].
    apply in_app_or in HU. apply in_app_or in HP.
    destruct HU as [HU | HU].
    { apply clean in HU. destruct HU as [HU _]. now rewrite prefix_app in HU. }
    destruct HP as [HP | HP].
    { apply clean in HP. destruct HP as [_ HP]. now rewrite prefix_app in HP. }
    now split.
Qed.

(** C6. The overlay added to the ambient environment holds
    TRIVY_NON_SSL=true exactly when the insecure-registry flag is true; when
    the flag is false the overlay has no TRIVY_NON_SSL variable.  When the
    ambient environment has no such variable of its own, the same holds of
    the whole environment. *)
Theorem Run_non_ssl_env :
  exists cmd added,
    commands (trace (Run os w imageRef auth insecureRegistry s)) = [cmd] /\
    Env cmd = os_Environ os s2 ++ added /\
    (In "TRIVY_NON_SSL=true" added <-> insecureRegistry = true) /\
    (insecureRegistry = false ->
     forall entry, In entry added ->
       String.prefix "TRIVY_NON_SSL=" entry = false) /\
    ((forall entry, In entry (os_Environ os s2) ->
        String.prefix "TRIVY_NON_SSL=" entry = false) ->
     (In "TRIVY_NON_SSL=true" (Env cmd) <-> insecureRegistry = true)).
Proof.
  exists (scanner_cmd w executable (Name reportFile) imageRef auth
            insecureRegistry (os_Environ os s2)),
         (overlay auth insecureRegistry).
  split; [exact (Run_commands os w imageRef auth insecureRegistry s s1 s2
                   executable reportFile found created) |].
  split; [reflexivity |].
  destruct (overlay_non_ssl auth insecureRegistry) as [flag absent].
  split; [exact flag |]. split; [exact absent |].
  intros clean. cbn [Env scanner_cmd]. rewrite <- flag. split.
  - intros H. apply in_app_or in H. destruct H as [H | H]; [| exact H].
    apply clean in H. discriminate H.
  - intros H. apply in_or_app. now right.
Qed.

(** C7. The subprocess is the executable found, started with the base
    flags in their fixed order and the image reference last; --debug and
    --ignore-unfixed stand in front exactly when configured. *)
Theorem Run_argument_list :
  exists cmd,
    commands (trace (Run os w imageRef auth insecureRegistry s)) = [cmd] /\
    Path cmd = executable /\
    Args cmd =
      executable ::
      (if DebugMode (config w) then ["--debug"] else []) ++
      (if IgnoreUnfixed (config w) then ["--ignore-unfixed"] else []) ++
      [ "--no-progress";
        "--cache-dir"; CacheDir (config w);
        "--severity"; Severity (config w);
        "--vuln-type"; VulnType (config w);
        "--format"; "json";
        "--output"; Name reportFile;
        imageRef ].
Proof.
  eexists. split.
  - exact (Run_commands os w imageRef auth insecureRegistry s s1 s2
             executable reportFile found created).
  - split; reflexivity.
Qed.

(** C8. When the command that the run started ends with an error, [Run]
    returns the zero report and an error whose message is "running trivy: ",
    the message of that error, ": " and the content of standard error; the
    message contains both. *)
Theorem Run_scan_failure (cmd : Cmd) (p : ProcessResult) (s3 : World)
        (err : error_value) :
  In (EvOutput cmd) (trace (Run os w imageRef auth insecureRegistry s)) ->
  cmd_Output os cmd s2 = (p, s3) ->
  run_err p = Some err ->
  exists e,
    result (Run os w imageRef auth insecureRegistry s) =
      Ret (zero_ScanReport, Some e) /\
    Error e = ("running trivy: " ++ Error err ++ ": " ++ stderr p)%string /\
    Contains (Error e) (Error err) = true /\
    Contains (Error e) (stderr p) = true.
Proof.
  intros started ran failed.
  apply in_commands in started.
  rewrite (Run_commands os w imageRef auth insecureRegistry s s1 s2
             executable reportFile found created) in started.
  destruct started as [<- | []].
  rewrite (Run_steps os w imageRef auth insecureRegistry s s1 s2 executable
             reportFile found created).
  rewrite ran. cbn [fst snd]. unfold result at 1. cbn [fst].
  unfold after_scan. rewrite failed.
  eexists. split; [reflexivity |].
  assert (M : Error (xerrors_Errorf "running trivy: %v: %v"
                       [inr err; inl (stderr p)]) =
              ("running trivy: " ++ Error err ++ ": " ++ stderr p)%string).
  { cbn [Error map Sprintf Ascii.eqb Bool.eqb orb].
    now rewrite string_app_nil_r. }
  split; [exact M |]. rewrite M. split.
  - apply Contains_app.
  - replace ("running trivy: " ++ Error err ++ ": " ++ stderr p)%string
      with (("running trivy: " ++ Error err ++ ": ") ++ stderr p ++ "")%string.
    + apply Contains_app.
    + now rewrite string_app_nil_r, !string_app_assoc.
Qed.

End RunProperties.

(** C9. Once the temporary report file is created, every run asks for its
    removal, exactly once and whatever the scan and the normalizer did; the
    result handed to the caller is the same under any behaviour of
    [os.Remove], and a removal that fails only adds a warning to the log
    after it. *)
Theorem Run_cleanup {Vulnerability Reader World : Type}
        (os : OS Vulnerability Reader World) (w : wrapper)
        (imageRef : string) (auth : RegistryAuth) (insecureRegistry : bool)
        (s s1 s2 : World) (executable : string) (reportFile : File Reader)
        (rm : string -> World -> error * World) :
  exec_LookPath os "trivy" s = (inl executable, s1) ->
  ioutil_TempFile os (ReportsDir (config w)) "scan_report_*.json" s1 =
    (inl reportFile, s2) ->
  removed (trace (Run os w imageRef auth insecureRegistry s)) =
    [Name reportFile] /\
  result (Run (with_Remove os rm) w imageRef auth insecureRegistry s) =
    result (Run os w imageRef auth insecureRegistry s) /\
  (forall e, (forall s', fst (rm (Name reportFile) s') = Some e) ->
     exists before,
       trace (Run (with_Remove os rm) w imageRef auth insecureRegistry s) =
       before ++
       [ EvRemove (Name reportFile);
         EvLog WarnLevel [("error", FError e)]
               "Error while removing scan report file" ]).
Proof.
  intros found created.
  pose proof (Run_steps os w imageRef auth insecureRegistry s s1 s2 executable
                reportFile found created) as R.
  pose proof (Run_steps (with_Remove os rm) w imageRef auth insecureRegistry
                s s1 s2 executable reportFile found created) as R'.
  cbv zeta in R, R'. rewrite after_scan_with_Remove in R'.
  cbn [with_Remove cmd_Output os_Environ os_Remove] in R'.
  rewrite R, R'. unfold result at 1 2. cbn [fst].
  split; [| split].
  - unfold trace at 1. cbn [snd]. rewrite !removed_app.
    rewrite (proj2 (after_scan_quiet _ _ _ _ _ _)).
    unfold cleanup. now destruct (fst (os_Remove _ _ _)).
  - reflexivity.
  - intros e failing. unfold trace at 1. cbn [snd].
    rewrite failing. unfold cleanup.
    assert (last_two : forall (t : list Event) a b c,
               t ++ [a; b] ++ [c] = (t ++ [a]) ++ [b; c])
      by (intros; rewrite <- app_assoc; reflexivity).
    eexists. rewrite app_assoc. apply last_two.
Qed.

(** ** The invoker in the small world *)

(** A scan of alpine:3.10 that finds one vulnerability; the temporary file
    is gone afterwards. *)
Example run_alpine :
  let trivy := {| ends := exit0;
                  writes := inl (mk_slice [alpine]) |} in
  let r := Run (demo_os trivy None) cfg "alpine:3.10" anonymous false start in
  result r = Ret ({| Target := "alpine:3.10 (alpine 3.10.2)";
                     Vulnerabilities := mk_slice [cve "CVE-2019-0001"] |}, None) /\
  files (snd (fst r)) = [].
Proof. split; reflexivity. Qed.

(** The scanner exits with status 1 and "unable to pull image". *)
Example run_failing :
  match result (Run (demo_os failing None) cfg "alpine:3.10" anonymous false start) with
  | Ret (report, Some e) =>
      report = zero_ScanReport /\
      Error e = "running trivy: exit status 1: unable to pull image"
  | _ => False
  end.
Proof. split; reflexivity. Qed.

Lemma Run_credentials_env_witness :
  exists cmd added,
    commands (trace (Run (demo_os good None) cfg "alpine:3.10" bob true start)) = [cmd] /\
    Env cmd = os_Environ (demo_os good None) created_world ++ added /\
    ((Username bob <> "" /\ Password bob <> "") <->
     (In ("TRIVY_USERNAME=" ++ Username bob)%string added /\
      In ("TRIVY_PASSWORD=" ++ Password bob)%string added)) /\
    ((Username bob = "" \/ Password bob = "") ->
     forall entry, In entry added ->
       String.prefix "TRIVY_USERNAME=" entry = false /\
       String.prefix "TRIVY_PASSWORD=" entry = false) /\
    ((forall entry, In entry (os_Environ (demo_os good None) created_world) ->
        String.prefix "TRIVY_USERNAME=" entry = false /\
        String.prefix "TRIVY_PASSWORD=" entry = false) ->
     ((Username bob <> "" /\ Password bob <> "") <->
      (In ("TRIVY_USERNAME=" ++ Username bob)%string (Env cmd) /\
       In ("TRIVY_PASSWORD=" ++ Password bob)%string (Env cmd)))).
Proof.
  apply (Run_credentials_env (demo_os good None) cfg "alpine:3.10" bob true
           start start created_world "/usr/local/bin/trivy" report_file).
  - reflexivity.
  - reflexivity.
Defined.

Lemma Run_non_ssl_env_witness :
  exists cmd added,
    commands (trace (Run (demo_os good None) cfg "alpine:3.10" bob true start)) = [cmd] /\
    Env cmd = os_Environ (demo_os good None) created_world ++ added /\
    (In "TRIVY_NON_SSL=true" added <-> true = true) /\
    (true = false ->
     forall entry, In entry added -> String.prefix "TRIVY_NON_SSL=" entry = false) /\
    ((forall entry, In entry (os_Environ (demo_os good None) created_world) ->
        String.prefix "TRIVY_NON_SSL=" entry = false) ->
     (In "TRIVY_NON_SSL=true" (Env cmd) <-> true = true)).
Proof.
  apply (Run_non_ssl_env (demo_os good None) cfg "alpine:3.10" bob true
           start start created_world "/usr/local/bin/trivy" report_file).
  - reflexivity.
  - reflexivity.
Defined.

Lemma Run_argument_list_witness :
  exists cmd,
    commands (trace (Run (demo_os good None) cfg "alpine:3.10" bob true start)) = [cmd] /\
    Path cmd = "/usr/local/bin/trivy" /\
    Args cmd =
      [ "/usr/local/bin/trivy"; "--ignore-unfixed"; "--no-progress";
        "--cache-dir"; "/data/cache"; "--severity"; "HIGH,CRITICAL";
        "--vuln-type"; "os"; "--format"; "json";
        "--output"; "/data/reports/scan_report_271828.json"; "alpine:3.10" ].
Proof.
  apply (Run_argument_list (demo_os good None) cfg "alpine:3.10" bob true
           start start created_world "/usr/local/bin/trivy" report_file).
  - reflexivity.
  - reflexivity.
Defined.

Lemma Run_scan_failure_witness :
  exists e,
    result (Run (demo_os failing None) cfg "alpine:3.10" anonymous false start) =
      Ret (zero_ScanReport, Some e) /\
    Error e = "running trivy: exit status 1: unable to pull image" /\
    Contains (Error e) "exit status 1" = true /\
    Contains (Error e) "unable to pull image" = true.
Proof.
  apply (Run_scan_failure (demo_os failing None) cfg "alpine:3.10" anonymous false
           start start created_world "/usr/local/bin/trivy" report_file
           eq_refl eq_refl
           (scanner_cmd cfg "/usr/local/bin/trivy" (Name report_file)
              "alpine:3.10" anonymous false ["PATH=/usr/local/bin"])
           exit1
           (write (Name report_file) (inr (Foreign "EOF")) created_world)
           (Foreign "exit status 1")).
  - apply in_commands. vm_compute. left. reflexivity.
  - reflexivity.
  - reflexivity.
Defined.

Lemma Run_cleanup_witness :
  removed (trace (Run (demo_os garbled None) cfg "alpine:3.10" bob false start)) =
    [Name report_file] /\
  result (Run (with_Remove (demo_os garbled None) denied) cfg "alpine:3.10" bob false start) =
    result (Run (demo_os garbled None) cfg "alpine:3.10" bob false start) /\
  (forall e, (forall s', fst (denied (Name report_file) s') = Some e) ->
     exists before,
       trace (Run (with_Remove (demo_os garbled None) denied) cfg "alpine:3.10"
                bob false start) =
       before ++
       [ EvRemove (Name report_file);
         EvLog WarnLevel [("error", FError e)]
               "Error while removing scan report file" ]).
Proof.
  apply (Run_cleanup (demo_os garbled None) cfg "alpine:3.10" bob false
           start start created_world "/usr/local/bin/trivy" report_file denied).
  - reflexivity.
  - reflexivity.
Defined.

(** ** Inputs that the decoder accepts, and ambient variables *)

(** C4, as first worded, fails on the stream "null": it is not a JSON array,
    yet the decoder accepts it and leaves the slice nil, so the normalizer
    answers with the empty-report error and not with a decode error. *)
Lemma parseScanReports_null_not_decode_error :
  Stream.is_array (Stream.First (V := Vuln) Stream.KNull "") = false /\
  result (parseScanReports Stream.stream_os cfg (Stream.First Stream.KNull "") start) =
    Ret (zero_ScanReport, Some (xerrors_New "expected at least one report")) /\
  ~ (exists e err,
       result (parseScanReports Stream.stream_os cfg
                 (Stream.First Stream.KNull "") start) =
         Ret (zero_ScanReport, Some e) /\
       e = xerrors_Errorf "decoding scan report from file %w" [inr err]).
Proof.
  split; [reflexivity |]. split; [reflexivity |].
  intros [e [err [R E]]]. vm_compute in R. rewrite E in R. discriminate R.
Qed.

(** The same for an empty array followed by bytes that are no JSON: the
    decoder stops after the array. *)
Example parseScanReports_trailing_bytes :
  result (parseScanReports Stream.stream_os cfg
            (Stream.First (Stream.KArray []) "]]garbage") start) =
  Ret (zero_ScanReport, Some (xerrors_New "expected at least one report")).
Proof. reflexivity. Qed.

(** A bare object, and a stream that ends too early, are decode errors. *)
Example parseScanReports_bare_object :
  result (parseScanReports Stream.stream_os cfg
            (Stream.First Stream.KObject "") start) =
  Ret (zero_ScanReport,
       Some (xerrors_Errorf "decoding scan report from file %w"
               [inr (Foreign "json: cannot unmarshal object into Go value of type []trivy.ScanReport")])).
Proof. reflexivity. Qed.

Example parseScanReports_truncated :
  result (parseScanReports Stream.stream_os cfg
            (Stream.Malformed (Foreign "unexpected EOF")) start) =
  Ret (zero_ScanReport,
       Some (xerrors_Errorf "decoding scan report from file %w"
               [inr (Foreign "unexpected EOF")])).
Proof. reflexivity. Qed.

(** C5, as first worded, fails when the ambient environment already holds
    the two variables: with the username alice and no password, the
    environment of the subprocess holds TRIVY_USERNAME=alice and
    TRIVY_PASSWORD= although the password is empty. *)
Lemma Run_ambient_credentials_reach_subprocess :
  exists cmd,
    commands (trace (Run (demo_os good None) cfg "alpine:3.10"
                       alice_no_password false exported)) = [cmd] /\
    Password alice_no_password = "" /\
    In ("TRIVY_USERNAME=" ++ Username alice_no_password)%string (Env cmd) /\
    In ("TRIVY_PASSWORD=" ++ Password alice_no_password)%string (Env cmd) /\
    ~ ((In ("TRIVY_USERNAME=" ++ Username alice_no_password)%string (Env cmd) /\
        In ("TRIVY_PASSWORD=" ++ Password alice_no_password)%string (Env cmd)) <->
       (Username alice_no_password <> "" /\ Password alice_no_password <> "")).
Proof.
  eexists. split; [reflexivity |]. split; [reflexivity |].
  assert (U : In "TRIVY_USERNAME=alice"
                 [ "PATH=/usr/local/bin"; "TRIVY_USERNAME=alice";
                   "TRIVY_PASSWORD="; "TRIVY_NON_SSL=true" ])
    by (right; left; reflexivity).
  assert (P : In "TRIVY_PASSWORD="
                 [ "PATH=/usr/local/bin"; "TRIVY_USERNAME=alice";
                   "TRIVY_PASSWORD="; "TRIVY_NON_SSL=true" ])
    by (right; right; left; reflexivity).
  split; [exact U |]. split; [exact P |].
  intros [both _]. destruct (both (conj U P)) as [_ nonempty].
  now apply nonempty.
Qed.

(** C6, as first worded, fails when the ambient environment already holds
    TRIVY_NON_SSL=true: the subprocess receives it with the flag false. *)
Lemma Run_ambient_non_ssl_reaches_subprocess :
  exists cmd,
    commands (trace (Run (demo_os good None) cfg "alpine:3.10"
                       anonymous false exported)) = [cmd] /\
    In "TRIVY_NON_SSL=true" (Env cmd) /\
    ~ (In "TRIVY_NON_SSL=true" (Env cmd) <-> false = true).
Proof.
  eexists. split; [reflexivity |].
  assert (N : In "TRIVY_NON_SSL=true"
                 [ "PATH=/usr/local/bin"; "TRIVY_USERNAME=alice";
                   "TRIVY_PASSWORD="; "TRIVY_NON_SSL=true" ])
    by (right; right; right; left; reflexivity).
  split; [exact N |].
  intros [flag _]. discriminate (flag N).
Qed.

(** * Further properties of the wrapper *)

Lemma logs_app (t u : list Event) : logs (t ++ u) = logs t ++ logs u.
Proof. apply filter_app. Qed.

Lemma calls_app (t u : list Event) : calls (t ++ u) = calls t ++ calls u.
Proof. apply filter_app. Qed.

Lemma calls_log_cons (level : Level) (fields : list (string * field_value))
      (msg : string) (t : list Event) :
  calls (EvLog level fields msg :: t) = calls t.
Proof. reflexivity. Qed.

Lemma calls_of_logs {A} (f : A -> Event) (l : list A) :
  (forall a, is_log (f a) = true) -> calls (map f l) = [].
Proof.
  intros L. induction l as [|a l IH]; [reflexivity |].
  simpl. unfold calls in *. simpl. now rewrite L, IH.
Qed.

Section ParseOutcome.

Context {Vulnerability Reader World : Type}.
Variable os : OS Vulnerability Reader World.
Variable w : wrapper.

(** The three ways [parseScanReports] ends, by what the decoder gives. *)
Lemma parse_cases (reportFile : Reader) (s : World) :
  (exists err s',
     json_Decode os reportFile s = (inr err, s') /\
     parseScanReports os w reportFile s =
     (Ret (zero_ScanReport,
           Some (xerrors_Errorf "decoding scan report from file %w" [inr err])),
      s', [EvDecode])) \/
  (exists scanReports s',
     json_Decode os reportFile s = (inl scanReports, s') /\
     elements scanReports = [] /\
     parseScanReports os w reportFile s =
     (Ret (zero_ScanReport, Some (xerrors_New "expected at least one report")),
      s', [EvDecode])) \/
  (exists scanReports s' first rest,
     json_Decode os reportFile s = (inl scanReports, s') /\
     elements scanReports = first :: rest /\
     parseScanReports os w reportFile s =
     (Ret ({| Target := Target first;
              Vulnerabilities := mk_slice (flattened (first :: rest)) |}, None),
      s',
      EvDecode ::
      map (fun r => EvLog TraceLevel [("target", FString (Target r))]
                          "Parsing vulnerabilities") (first :: rest))).
Proof.
  destruct (json_Decode os reportFile s) as [[scanReports|err] s'] eqn:D.
  - destruct (elements scanReports) as [|first rest] eqn:E.
    + right. left. exists scanReports, s'. split; [reflexivity |].
      split; [exact E |].
      apply (parse_empty os w reportFile s s' scanReports D).
      unfold len. now rewrite E.
    + right. right. exists scanReports, s', first, rest.
      split; [reflexivity |]. split; [exact E |].
      exact (parse_merge os w reportFile s s' scanReports first rest D E).
  - left. exists err, s'. split; [reflexivity |].
    exact (parse_decode_error os w reportFile s s' err D).
Qed.

(** [parseScanReports] never panics, whatever the decoder gives (the index
    [scanReports[0]] is behind the length check); with an error it returns
    the zero report, and without one a report whose vulnerabilities are not
    nil. *)
Theorem parseScanReports_report_or_error (reportFile : Reader) (s : World) :
  exists report err,
    result (parseScanReports os w reportFile s) = Ret (report, err) /\
    (err <> None -> report = zero_ScanReport) /\
    (err = None -> is_nil (Vulnerabilities report) = false).
Proof.
  destruct (parse_cases reportFile s)
    as [[err [s' [_ R]]] | [[l [s' [_ [_ R]]]] | [l [s' [f [r [_ [_ R]]]]]]]];
    rewrite R; eexists; eexists; (split; [reflexivity |]); split;
    try reflexivity; try discriminate; intros N; now elim N.
Qed.

(** [parseScanReports] calls the decoder once and nothing else outside the
    process; the world it leaves is the one the decoder left. *)
Theorem parseScanReports_reads_once (reportFile : Reader) (s : World) :
  calls (trace (parseScanReports os w reportFile s)) = [EvDecode] /\
  snd (fst (parseScanReports os w reportFile s)) =
    snd (json_Decode os reportFile s).
Proof.
  destruct (parse_cases reportFile s)
    as [[err [s' [D R]]] | [[l [s' [D [_ R]]]] | [l [s' [f [r [D [_ R]]]]]]]];
    rewrite R, D; split; try reflexivity.
  unfold trace. cbn [snd].
  change (calls ([EvDecode] ++
                 map (fun r0 => EvLog TraceLevel [("target", FString (Target r0))]
                                      "Parsing vulnerabilities") (f :: r))
          = [EvDecode]).
  rewrite calls_app, calls_of_logs by reflexivity. reflexivity.
Qed.

(** When the decoder yields sub-reports, the log gets one entry for each, in
    their order and naming its target: the targets that the aggregate drops
    are still logged. *)
Theorem parseScanReports_logs_each_target
        (reportFile : Reader) (s s' : World)
        (scanReports : slice (ScanReport Vulnerability)) :
  json_Decode os reportFile s = (inl scanReports, s') ->
  len scanReports <> 0 ->
  logs (trace (parseScanReports os w reportFile s)) =
  map (fun r => EvLog TraceLevel [("target", FString (Target r))]
                      "Parsing vulnerabilities") (elements scanReports).
Proof.
  intros D L. destruct (nonempty_elements scanReports L) as [first [rest E]].
  rewrite (parse_merge os w reportFile s s' scanReports first rest D E), E.
  unfold trace. cbn [snd]. unfold logs. cbn [filter is_log].
  generalize (first :: rest) as l. induction l as [|r l IH]; [reflexivity |].
  simpl. now rewrite IH.
Qed.

(** No vulnerability is lost or invented: a record is in the aggregate
    exactly when it is in one of the sub-reports. *)
Theorem parseScanReports_same_vulnerabilities
        (reportFile : Reader) (s s' : World)
        (scanReports : slice (ScanReport Vulnerability)) :
  json_Decode os reportFile s = (inl scanReports, s') ->
  len scanReports <> 0 ->
  exists report,
    result (parseScanReports os w reportFile s) = Ret (report, None) /\
    forall v,
      In v (elements (Vulnerabilities report)) <->
      exists r, In r (elements scanReports) /\
                In v (elements (Vulnerabilities r)).
Proof.
  intros D L. destruct (nonempty_elements scanReports L) as [first [rest E]].
  rewrite (parse_merge os w reportFile s s' scanReports first rest D E), E.
  eexists. split; [reflexivity |]. intros v.
  cbn [Vulnerabilities elements]. unfold flattened. rewrite in_concat. split.
  - intros [l [Hl Hv]]. apply in_map_iff in Hl. destruct Hl as [r [<- Hr]].
    now exists r.
  - intros [r [Hr Hv]]. exists (elements (Vulnerabilities r)).
    split; [| exact Hv]. apply in_map_iff. now exists r.
Qed.

End ParseOutcome.

Section RunOutcome.

Context {Vulnerability Reader World : Type}.
Variable os : OS Vulnerability Reader World.
Variable w : wrapper.
Variables (imageRef : string) (auth : RegistryAuth) (insecureRegistry : bool).

(** Without the executable [Run] hands back the error of [exec.LookPath]
    as it is, with the zero report; the lookup of "trivy" is its only call:
    no temporary file, no subprocess, nothing removed. *)
Theorem Run_executable_missing (s s1 : World) (err : error_value) :
  exec_LookPath os "trivy" s = (inr err, s1) ->
  result (Run os w imageRef auth insecureRegistry s) =
    Ret (zero_ScanReport, Some err) /\
  calls (trace (Run os w imageRef auth insecureRegistry s)) =
    [EvLookPath "trivy"] /\
  snd (fst (Run os w imageRef auth insecureRegistry s)) = s1.
Proof.
  intros H.
  rewrite (Run_not_found os w imageRef auth insecureRegistry s s1 err H).
  repeat split.
Qed.

(** When the temporary file cannot be created [Run] hands back the error
    of [ioutil.TempFile] as it is, with the zero report; the file is asked
    for in the configured reports directory under the pattern
    scan_report_*.json, no subprocess is started and nothing is removed. *)
Theorem Run_tempfile_failure (s s1 s2 : World) (executable : string)
        (err : error_value) :
  exec_LookPath os "trivy" s = (inl executable, s1) ->
  ioutil_TempFile os (ReportsDir (config w)) "scan_report_*.json" s1 =
    (inr err, s2) ->
  result (Run os w imageRef auth insecureRegistry s) =
    Ret (zero_ScanReport, Some err) /\
  calls (trace (Run os w imageRef auth insecureRegistry s)) =
    [ EvLookPath "trivy";
      EvTempFile (ReportsDir (config w)) "scan_report_*.json" ] /\
  snd (fst (Run os w imageRef auth insecureRegistry s)) = s2.
Proof.
  intros H T.
  rewrite (Run_no_tempfile os w imageRef auth insecureRegistry s s1 s2
             executable err H T).
  repeat split.
Qed.

(** [Run] never panics; whenever it returns an error the report is the zero
    report, and whenever it returns none the report's vulnerabilities are
    not nil. *)
Theorem Run_report_or_error (s : World) :
  exists report err,
    result (Run os w imageRef auth insecureRegistry s) = Ret (report, err) /\
    (err <> None -> report = zero_ScanReport) /\
    (err = None -> is_nil (Vulnerabilities report) = false).
Proof.
  destruct (exec_LookPath os "trivy" s) as [[executable|err] s1] eqn:L.
  - destruct (ioutil_TempFile os (ReportsDir (config w)) "scan_report_*.json" s1)
      as [[reportFile|err] s2] eqn:T.
    + rewrite (Run_steps os w imageRef auth insecureRegistry s s1 s2 executable
                 reportFile L T).
      unfold result at 1. cbn [fst]. unfold after_scan.
      destruct (run_err (fst (cmd_Output os _ s2))) as [err|].
      * eexists. eexists. split; [reflexivity |].
        split; [reflexivity | discriminate].
      * unfold result at 1. cbn [fst].
        apply parseScanReports_report_or_error.
    + rewrite (Run_no_tempfile os w imageRef auth insecureRegistry s s1 s2
                 executable err L T).
      eexists. eexists. split; [reflexivity |].
      split; [reflexivity | discriminate].
  - rewrite (Run_not_found os w imageRef auth insecureRegistry s s1 err L).
    eexists. eexists. split; [reflexivity |].
    split; [reflexivity | discriminate].
Qed.

Variables (s s1 s2 : World) (executable : string) (reportFile : File Reader).
Hypothesis found : exec_LookPath os "trivy" s = (inl executable, s1).
Hypothesis created :
  ioutil_TempFile os (ReportsDir (config w)) "scan_report_*.json" s1 =
    (inl reportFile, s2).

(** The run, given how the command it started ended. *)
Lemma Run_after (cmd : Cmd) (p : ProcessResult) (s3 : World) :
  In (EvOutput cmd) (trace (Run os w imageRef auth insecureRegistry s)) ->
  cmd_Output os cmd s2 = (p, s3) ->
  let scanned := after_scan os w imageRef reportFile p s3 in
  let gone := os_Remove os (Name reportFile) (snd (fst scanned)) in
  Run os w imageRef auth insecureRegistry s =
  (result scanned, snd gone,
   [ EvLog DebugLevel [("image_ref", FString imageRef)] "Started scanning";
     EvLookPath "trivy";
     EvTempFile (ReportsDir (config w)) "scan_report_*.json";
     EvLog DebugLevel [("path", FString (Name reportFile))]
           "Saving scan report to tmp file";
     EvLog TraceLevel [("cmd", FString executable);
                       ("args", FStrings (flags w (Name reportFile) imageRef))]
           "Exec command with args";
     EvOutput cmd ] ++
   trace scanned ++ cleanup (Name reportFile) (fst gone)).
Proof.
  intros started ran.
  apply in_commands in started.
  rewrite (Run_commands os w imageRef auth insecureRegistry s s1 s2
             executable reportFile found created) in started.
  destruct started as [<- | []].
  rewrite (Run_steps os w imageRef auth insecureRegistry s s1 s2 executable
             reportFile found created).
  now rewrite ran.
Qed.

Lemma calls_cleanup (name : string) (e : error) :
  calls (cleanup name e) = [EvRemove name].
Proof. now destruct e. Qed.

(** When the command ends without error, [Run] returns what
    [parseScanReports] returns on the temporary file, read in the world the
    command left: the report or the normalizer's own error, unchanged. *)
Theorem Run_returns_parse_result (cmd : Cmd) (p : ProcessResult) (s3 : World) :
  In (EvOutput cmd) (trace (Run os w imageRef auth insecureRegistry s)) ->
  cmd_Output os cmd s2 = (p, s3) ->
  run_err p = None ->
  result (Run os w imageRef auth insecureRegistry s) =
  result (parseScanReports os w (reader reportFile) s3).
Proof.
  intros started ran ok. rewrite (Run_after cmd p s3 started ran).
  unfold result at 1. cbn [fst]. unfold after_scan. now rewrite ok.
Qed.

(** End to end: the command ends without error and the decoder finds a
    non-empty sequence of sub-reports in the temporary file; [Run] returns,
    with a nil error, the first target and all vulnerabilities in order. *)
Theorem Run_scan_success (cmd : Cmd) (p : ProcessResult) (s3 s4 : World)
        (scanReports : slice (ScanReport Vulnerability))
        (first : ScanReport Vulnerability)
        (rest : list (ScanReport Vulnerability)) :
  In (EvOutput cmd) (trace (Run os w imageRef auth insecureRegistry s)) ->
  cmd_Output os cmd s2 = (p, s3) ->
  run_err p = None ->
  json_Decode os (reader reportFile) s3 = (inl scanReports, s4) ->
  elements scanReports = first :: rest ->
  result (Run os w imageRef auth insecureRegistry s) =
  Ret ({| Target := Target first;
          Vulnerabilities :=
            mk_slice (concat (map (fun r => elements (Vulnerabilities r))
                                  (first :: rest))) |}, None).
Proof.
  intros started ran ok decoded E. rewrite (Run_after cmd p s3 started ran).
  unfold result at 1. cbn [fst]. unfold after_scan. rewrite ok.
  now rewrite (parse_merge os w (reader reportFile) s3 s4 scanReports first
                 rest decoded E).
Qed.

(** The calls of a run whose command ends without error, in their order:
    the lookup, the temporary file, the command, one decoding and, last, the
    removal.  The file is decoded only after the command has ended and
    removed only after it has been decoded. *)
Theorem Run_call_order (cmd : Cmd) (p : ProcessResult) (s3 : World) :
  In (EvOutput cmd) (trace (Run os w imageRef auth insecureRegistry s)) ->
  cmd_Output os cmd s2 = (p, s3) ->
  run_err p = None ->
  calls (trace (Run os w imageRef auth insecureRegistry s)) =
  [ EvLookPath "trivy";
    EvTempFile (ReportsDir (config w)) "scan_report_*.json";
    EvOutput cmd;
    EvDecode;
    EvRemove (Name reportFile) ].
Proof.
  intros started ran ok. rewrite (Run_after cmd p s3 started ran).
  unfold trace at 1. cbn [snd]. rewrite !calls_app, calls_cleanup.
  unfold after_scan. rewrite ok. unfold trace at 1. cbn [snd].
  rewrite !calls_log_cons.
  rewrite (proj1 (parseScanReports_reads_once os w (reader reportFile) s3)).
  reflexivity.
Qed.

(** When the command ends with an error the temporary file is never
    decoded: the calls are the lookup, the temporary file, the command and
    the removal. *)
Theorem Run_failure_skips_decoding (cmd : Cmd) (p : ProcessResult) (s3 : World)
        (err : error_value) :
  In (EvOutput cmd) (trace (Run os w imageRef auth insecureRegistry s)) ->
  cmd_Output os cmd s2 = (p, s3) ->
  run_err p = Some err ->
  calls (trace (Run os w imageRef auth insecureRegistry s)) =
  [ EvLookPath "trivy";
    EvTempFile (ReportsDir (config w)) "scan_report_*.json";
    EvOutput cmd;
    EvRemove (Name reportFile) ].
Proof.
  intros started ran failed. rewrite (Run_after cmd p s3 started ran).
  unfold trace at 1. cbn [snd]. rewrite !calls_app, calls_cleanup.
  unfold after_scan. rewrite failed. reflexivity.
Qed.

(** The environment of the command is the ambient environment, unchanged
    and in its order, followed by the credential pair (username first) when
    both are non-empty and then by TRIVY_NON_SSL=true when the registry is
    insecure; nothing else is added. *)
Theorem Run_environment :
  exists cmd,
    commands (trace (Run os w imageRef auth insecureRegistry s)) = [cmd] /\
    Env cmd =
      os_Environ os s2 ++
      (if negb (Username auth =? "")%string && negb (Password auth =? "")%string
       then [ ("TRIVY_USERNAME=" ++ Username auth)%string;
              ("TRIVY_PASSWORD=" ++ Password auth)%string ]
       else []) ++
      (if insecureRegistry then ["TRIVY_NON_SSL=true"] else []).
Proof.
  eexists. split.
  - exact (Run_commands os w imageRef auth insecureRegistry s s1 s2
             executable reportFile found created).
  - reflexivity.
Qed.

End RunOutcome.

(** The credentials reach the subprocess through its environment only: the
    argument list is the same whatever the credentials, and when the command
    ends the same way under both, so do the entries handed to the logger and
    the result.  Neither the username nor the password is logged by the
    wrapper itself. *)
Theorem Run_credentials_not_logged {Vulnerability Reader World : Type}
        (os : OS Vulnerability Reader World) (w : wrapper)
        (imageRef : string) (auth auth' : RegistryAuth)
        (insecureRegistry : bool)
        (s s1 s2 : World) (executable : string) (reportFile : File Reader) :
  exec_LookPath os "trivy" s = (inl executable, s1) ->
  ioutil_TempFile os (ReportsDir (config w)) "scan_report_*.json" s1 =
    (inl reportFile, s2) ->
  map Args (commands (trace (Run os w imageRef auth insecureRegistry s))) =
  map Args (commands (trace (Run os w imageRef auth' insecureRegistry s))) /\
  ((forall c c',
      In (EvOutput c) (trace (Run os w imageRef auth insecureRegistry s)) ->
      In (EvOutput c') (trace (Run os w imageRef auth' insecureRegistry s)) ->
      cmd_Output os c s2 = cmd_Output os c' s2) ->
   logs (trace (Run os w imageRef auth insecureRegistry s)) =
   logs (trace (Run os w imageRef auth' insecureRegistry s)) /\
   result (Run os w imageRef auth insecureRegistry s) =
   result (Run os w imageRef auth' insecureRegistry s)).
Proof.
  intros found created.
  pose proof (Run_commands os w imageRef auth insecureRegistry s s1 s2
                executable reportFile found created) as C.
  pose proof (Run_commands os w imageRef auth' insecureRegistry s s1 s2
                executable reportFile found created) as C'.
  split; [now rewrite C, C' |].
  intros same.
  assert (ran : cmd_Output os
                  (scanner_cmd w executable (Name reportFile) imageRef auth
                     insecureRegistry (os_Environ os s2)) s2 =
                cmd_Output os
                  (scanner_cmd w executable (Name reportFile) imageRef auth'
                     insecureRegistry (os_Environ os s2)) s2).
  { apply same; apply in_commands; [rewrite C | rewrite C']; now left. }
  rewrite (Run_steps os w imageRef auth insecureRegistry s s1 s2 executable
             reportFile found created).
  rewrite (Run_steps os w imageRef auth' insecureRegistry s s1 s2 executable
             reportFile found created).
  rewrite ran.
  set (scanned := after_scan os w imageRef reportFile _ _).
  set (gone := os_Remove os (Name reportFile) _).
  unfold result, trace. cbn [fst snd].
  split; [| reflexivity].
  rewrite !logs_app. reflexivity.
Qed.

(** ** The further properties in the small world *)

Lemma parseScanReports_logs_each_target_witness :
  logs (trace (parseScanReports (demo_os good None) cfg "r.json"
                 (written "r.json" good))) =
  map (fun r => EvLog TraceLevel [("target", FString (Target r))]
                      "Parsing vulnerabilities") [alpine; gomod].
Proof.
  apply (parseScanReports_logs_each_target (demo_os good None) cfg "r.json"
           (written "r.json" good) (written "r.json" good)
           (mk_slice [alpine; gomod])).
  - reflexivity.
  - unfold len. simpl. lia.
Defined.

Lemma parseScanReports_same_vulnerabilities_witness :
  exists report,
    result (parseScanReports (demo_os good None) cfg "r.json"
              (written "r.json" good)) = Ret (report, None) /\
    forall v,
      In v (elements (Vulnerabilities report)) <->
      exists r, In r [alpine; gomod] /\ In v (elements (Vulnerabilities r)).
Proof.
  apply (parseScanReports_same_vulnerabilities (demo_os good None) cfg "r.json"
           (written "r.json" good) (written "r.json" good)
           (mk_slice [alpine; gomod])).
  - reflexivity.
  - unfold len. simpl. lia.
Defined.

Lemma Run_executable_missing_witness :
  result (Run (no_trivy good) cfg "alpine:3.10" bob true start) =
    Ret (zero_ScanReport,
         Some (Foreign "exec: trivy: executable file not found in $PATH")) /\
  calls (trace (Run (no_trivy good) cfg "alpine:3.10" bob true start)) =
    [EvLookPath "trivy"] /\
  snd (fst (Run (no_trivy good) cfg "alpine:3.10" bob true start)) = start.
Proof.
  apply (Run_executable_missing (no_trivy good) cfg "alpine:3.10" bob true
           start start).
  reflexivity.
Defined.

Lemma Run_tempfile_failure_witness :
  result (Run (full_disk good) cfg "alpine:3.10" bob true start) =
    Ret (zero_ScanReport, Some (Foreign "no space left on device")) /\
  calls (trace (Run (full_disk good) cfg "alpine:3.10" bob true start)) =
    [ EvLookPath "trivy"; EvTempFile "/data/reports" "scan_report_*.json" ] /\
  snd (fst (Run (full_disk good) cfg "alpine:3.10" bob true start)) = start.
Proof.
  apply (Run_tempfile_failure (full_disk good) cfg "alpine:3.10" bob true
           start start start "/usr/local/bin/trivy").
  - reflexivity.
  - reflexivity.
Defined.

Lemma Run_returns_parse_result_witness :
  result (Run (demo_os garbled None) cfg "alpine:3.10" bob true start) =
  result (parseScanReports (demo_os garbled None) cfg (reader report_file)
            (scanned_world garbled)).
Proof.
  apply (Run_returns_parse_result (demo_os garbled None) cfg "alpine:3.10" bob
           true start start created_world "/usr/local/bin/trivy" report_file
           eq_refl eq_refl (demo_cmd bob true) exit0 (scanned_world garbled)).
  - apply in_commands. vm_compute. left. reflexivity.
  - reflexivity.
  - reflexivity.
Defined.

Lemma Run_scan_success_witness :
  result (Run (demo_os good None) cfg "alpine:3.10" bob true start) =
  Ret ({| Target := "alpine:3.10 (alpine 3.10.2)";
          Vulnerabilities :=
            mk_slice (concat (map (fun r => elements (Vulnerabilities r))
                                  [alpine; gomod])) |}, None).
Proof.
  apply (Run_scan_success (demo_os good None) cfg "alpine:3.10" bob true
           start start created_world "/usr/local/bin/trivy" report_file
           eq_refl eq_refl (demo_cmd bob true) exit0 (scanned_world good)
           (scanned_world good) (mk_slice [alpine; gomod]) alpine [gomod]).
  - apply in_commands. vm_compute. left. reflexivity.
  - reflexivity.
  - reflexivity.
  - reflexivity.
  - reflexivity.
Defined.

Lemma Run_call_order_witness :
  calls (trace (Run (demo_os good None) cfg "alpine:3.10" bob true start)) =
  [ EvLookPath "trivy";
    EvTempFile "/data/reports" "scan_report_*.json";
    EvOutput (demo_cmd bob true);
    EvDecode;
    EvRemove (Name report_file) ].
Proof.
  apply (Run_call_order (demo_os good None) cfg "alpine:3.10" bob true
           start start created_world "/usr/local/bin/trivy" report_file
           eq_refl eq_refl (demo_cmd bob true) exit0 (scanned_world good)).
  - apply in_commands. vm_compute. left. reflexivity.
  - reflexivity.
  - reflexivity.
Defined.

Lemma Run_failure_skips_decoding_witness :
  calls (trace (Run (demo_os failing None) cfg "alpine:3.10" anonymous false start)) =
  [ EvLookPath "trivy";
    EvTempFile "/data/reports" "scan_report_*.json";
    EvOutput (demo_cmd anonymous false);
    EvRemove (Name report_file) ].
Proof.
  apply (Run_failure_skips_decoding (demo_os failing None) cfg "alpine:3.10"
           anonymous false start start created_world "/usr/local/bin/trivy"
           report_file eq_refl eq_refl (demo_cmd anonymous false) exit1
           (scanned_world failing) (Foreign "exit status 1")).
  - apply in_commands. vm_compute. left. reflexivity.
  - reflexivity.
  - reflexivity.
Defined.

Lemma Run_environment_witness :
  exists cmd,
    commands (trace (Run (demo_os good None) cfg "alpine:3.10" bob true start)) = [cmd] /\
    Env cmd =
      ["PATH=/usr/local/bin"] ++
      ["TRIVY_USERNAME=bob"; "TRIVY_PASSWORD=s3cret"] ++
      ["TRIVY_NON_SSL=true"].
Proof.
  apply (Run_environment (demo_os good None) cfg "alpine:3.10" bob true
           start start created_world "/usr/local/bin/trivy" report_file).
  - reflexivity.
  - reflexivity.
Defined.

Lemma Run_credentials_not_logged_witness :
  map Args (commands (trace (Run (demo_os good None) cfg "alpine:3.10" bob true start))) =
  map Args (commands (trace (Run (demo_os good None) cfg "alpine:3.10" anonymous true start))) /\
  logs (trace (Run (demo_os good None) cfg "alpine:3.10" bob true start)) =
  logs (trace (Run (demo_os good None) cfg "alpine:3.10" anonymous true start)) /\
  result (Run (demo_os good None) cfg "alpine:3.10" bob true start) =
  result (Run (demo_os good None) cfg "alpine:3.10" anonymous true start).
Proof.
  destruct (Run_credentials_not_logged (demo_os good None) cfg "alpine:3.10"
              bob anonymous true start start created_world
              "/usr/local/bin/trivy" report_file eq_refl eq_refl)
    as [same_args same_logs].
  split; [exact same_args |]. apply same_logs.
  intros c c' started started'.
  apply in_commands in started. apply in_commands in started'.
  vm_compute in started. vm_compute in started'.
  destruct started as [<- | []]. destruct started' as [<- | []].
  reflexivity.
Defined.
